(** * refrapt: the classes of [refrapt/classes.py]

    A shallow embedding of [Source], [Timestamp], [IndexCollection],
    [Index] and [Downloader.CustomArguments], and the properties of the
    mirror's index resolution and change detection.

    Conventions of the embedding:
    - a Python [str] is a [string]; each character is one code point below
      256, and the character classes of [str.strip] and of the regex class
      [\w] are the Unicode ones restricted to that range;
    - the lines that [Index.Read] decodes from a file are lists of code
      points of any width;
    - a Python [dict] is a [gmap]; the three-level [defaultdict] of
      [IndexCollection] creates the missing levels on access;
    - an exception is [Raise] with the name of its class;
    - the global [Settings], the file system, [helpers.SanitiseUri] and the
      regex engine behind [re.match] are passed explicitly. *)

From Stdlib Require Import ZArith NArith Ascii.
From stdpp Require Import base tactics option list strings gmap fin_maps.

Local Open Scope Z_scope.

(** ** Results of calls that may raise *)

Inductive result (A : Type) : Type :=
| Ok (a : A)
| Raise (exc : string).
Arguments Ok {A} a.
Arguments Raise {A} exc.

Global Instance result_bind : MBind result := λ A B k r,
  match r with
  | Ok a => k a
  | Raise e => Raise e
  end.
Global Instance result_ret : MRet result := λ A a, Ok a.
Global Instance result_fmap : FMap result := λ A B f r,
  match r with
  | Ok a => Ok (f a)
  | Raise e => Raise e
  end.

(** [for x in l: acc = step(acc, x)], where the body may raise. *)
Fixpoint foldlM {A B} (step : A → B → result A) (acc : A) (l : list B) : result A :=
  match l with
  | [] => Ok acc
  | x :: l' => acc' ← step acc x; foldlM step acc' l'
  end.

(** ** Characters and strings as Python sees them *)

Definition LF : ascii := "010"%char.
Definition nl : string := String LF "".

(** [c.isspace()] for a code point below 256. *)
Definition isspace (c : ascii) : bool :=
  let n := N_of_ascii c in
  (((9 <=? n) && (n <=? 13)) || ((28 <=? n) && (n <=? 32))
   || (n =? 133) || (n =? 160))%N.

(** The regex class [\w] for a code point below 256: the alphanumeric
    characters of the Unicode database, and the underscore. *)
Definition isword (c : ascii) : bool :=
  let n := N_of_ascii c in
  (((48 <=? n) && (n <=? 57)) || ((65 <=? n) && (n <=? 90)) || (n =? 95)
   || ((97 <=? n) && (n <=? 122))
   || (n =? 170) || (n =? 178) || (n =? 179) || (n =? 181) || (n =? 185)
   || (n =? 186) || ((188 <=? n) && (n <=? 190))
   || ((192 <=? n) && (n <=? 214)) || ((216 <=? n) && (n <=? 246))
   || ((248 <=? n) && (n <=? 255)))%N.

Definition nonempty (s : string) : bool :=
  match s with
  | "" => false
  | String _ _ => true
  end.

(** [s.split(sep)] for a separator of one character. *)
Fixpoint split (sep : ascii) (s : string) : list string :=
  match s with
  | "" => [""]
  | String c s' =>
      if Ascii.eqb c sep then "" :: split sep s'
      else match split sep s' with
           | [] => [String c ""]
           | w :: ws => String c w :: ws
           end
  end.

(** [list(filter(None, s.split(sep)))]: the non-empty pieces. *)
Definition fields (sep : ascii) (s : string) : list string :=
  List.filter nonempty (split sep s).

(** [needle in s]. *)
Fixpoint contains (needle s : string) : bool :=
  String.prefix needle s
  || match s with
     | "" => false
     | String _ s' => contains needle s'
     end.

(** [s.index(c)], where [c in s] has been tested. *)
Fixpoint index (c : ascii) (s : string) : nat :=
  match s with
  | "" => 0%nat
  | String x s' => if Ascii.eqb x c then 0%nat else S (index c s')
  end.

(** [s[0:n]]. *)
Fixpoint slice_to (n : nat) (s : string) : string :=
  match n, s with
  | S k, String c s' => String c (slice_to k s')
  | _, _ => ""
  end.

(** [s.replace(old, new)] for a non-empty [old]: the occurrences are
    taken from the left and do not overlap; [skip] counts the characters
    of an occurrence still to pass over. *)
Fixpoint replace_go (old new : string) (skip : nat) (s : string) : string :=
  match s with
  | "" => ""
  | String c s' =>
      match skip with
      | S k => replace_go old new k s'
      | O =>
          if String.prefix old s
          then new +:+ replace_go old new (String.length old - 1) s'
          else String c (replace_go old new 0 s')
      end
  end.

Definition replace (old new s : string) : string := replace_go old new 0 s.

Fixpoint lstrip (s : string) : string :=
  match s with
  | "" => ""
  | String c s' => if isspace c then lstrip s' else s
  end.

Fixpoint rstrip (s : string) : string :=
  match s with
  | "" => ""
  | String c s' =>
      match rstrip s' with
      | "" => if isspace c then "" else String c ""
      | r => String c r
      end
  end.

Definition strip (s : string) : string := lstrip (rstrip s).

(** ** [Index]: the package index parser *)

(** [f.readlines()] of a file opened in binary mode: the pieces end after
    each line feed, which they keep. *)
Fixpoint readlines (s : string) : list string :=
  match s with
  | "" => []
  | String c s' =>
      if Ascii.eqb c LF then String c "" :: readlines s'
      else match readlines s' with
           | [] => [String c ""]
           | l :: ls => String c l :: ls
           end
  end.

(** *** The text of a file

    [Index.Read] decodes what the file holds, whatever the code points;
    its lines are lists of code points.  The rest of the embedding works
    on texts whose code points lie below 256, as values of [string]. *)

(** The code points of such a text. *)
Fixpoint points (s : string) : list N :=
  match s with
  | "" => []
  | String c s' => N_of_ascii c :: points s'
  end.

(** [c.isspace()] for any code point. *)
Definition isspace_point (n : N) : bool :=
  (((9 <=? n) && (n <=? 13)) || ((28 <=? n) && (n <=? 32))
   || (n =? 133) || (n =? 160) || (n =? 5760)
   || ((8192 <=? n) && (n <=? 8202)) || (n =? 8232) || (n =? 8233)
   || (n =? 8239) || (n =? 8287) || (n =? 12288))%N.

(** [s.rstrip()] for a text of any code points. *)
Fixpoint rstrip_points (s : list N) : list N :=
  match s with
  | [] => []
  | n :: s' =>
      match rstrip_points s' with
      | [] => if isspace_point n then [] else [n]
      | r => n :: r
      end
  end.

Definition between (lo hi : N) (b : ascii) : bool :=
  ((lo <=? N_of_ascii b) && (N_of_ascii b <=? hi))%N.

(** The six bits that a continuation byte carries. *)
Definition low_bits (b : ascii) : N := (N_of_ascii b - 128)%N.

(** [bytes.decode()]: strict UTF-8.  A sequence is one byte below 128, or
    a lead byte and one, two or three continuation bytes; the encodings
    that are longer than needed, the surrogates and the code points
    above 10FFFF are errors, as a sequence that the end cuts short is. *)
Fixpoint decode (bs : string) : result (list N) :=
  match bs with
  | "" => Ok []
  | String b0 bs1 =>
      let n0 := N_of_ascii b0 in
      if (n0 <? 128)%N then cons n0 <$> decode bs1
      else if ((194 <=? n0) && (n0 <=? 223))%N then
        match bs1 with
        | String b1 bs2 =>
            if between 128 191 b1
            then cons ((n0 - 192) * 64 + low_bits b1)%N <$> decode bs2
            else Raise "UnicodeDecodeError"
        | _ => Raise "UnicodeDecodeError"
        end
      else if ((224 <=? n0) && (n0 <=? 239))%N then
        match bs1 with
        | String b1 (String b2 bs3) =>
            if between (if (n0 =? 224)%N then 160 else 128)
                       (if (n0 =? 237)%N then 159 else 191) b1
               && between 128 191 b2
            then cons ((n0 - 224) * 4096 + low_bits b1 * 64 + low_bits b2)%N
                   <$> decode bs3
            else Raise "UnicodeDecodeError"
        | _ => Raise "UnicodeDecodeError"
        end
      else if ((240 <=? n0) && (n0 <=? 244))%N then
        match bs1 with
        | String b1 (String b2 (String b3 bs4)) =>
            if between (if (n0 =? 240)%N then 144 else 128)
                       (if (n0 =? 244)%N then 143 else 191) b1
               && between 128 191 b2 && between 128 191 b3
            then cons ((n0 - 240) * 262144 + low_bits b1 * 4096
                       + low_bits b2 * 64 + low_bits b3)%N
                   <$> decode bs4
            else Raise "UnicodeDecodeError"
        | _ => Raise "UnicodeDecodeError"
        end
      else Raise "UnicodeDecodeError"
  end.

(** [Index.Read]: [self._lines] from the bytes of the file. *)
Definition Read (contents : string) : result (list (list N)) :=
  mapM (λ line, rstrip_points <$> decode line) (readlines contents).

Definition keywords : list string :=
  ["Filename"; "MD5sum"; "SHA1"; "SHA256"; "Size"; "Files"; "Directory"].

(** [re.search(r"^([\w\-]+:)", line)]: one or more word characters or
    hyphens at the start of the line, then a colon. *)
Fixpoint field_match_go (seen : bool) (s : string) : bool :=
  match s with
  | "" => false
  | String c s' =>
      if isword c || Ascii.eqb c "-" then field_match_go true s'
      else seen && Ascii.eqb c ":"
  end.

Definition field_match (line : string) : bool := field_match_go false line.

(** The locals of [GetPackages]. *)
Record pkg_state : Type := PkgState {
  packages : list (gmap string string);
  package : gmap string string;
  key : option string
}.

(** The state of the parser holds field names of the whitelist only. *)
Definition whitelisted (s : pkg_state) : Prop :=
  (∀ k, is_Some (package s !! k) → k ∈ keywords)
  ∧ (∀ record k, record ∈ packages s → is_Some (record !! k) → k ∈ keywords)
  ∧ (∀ k, key s = Some k → k ∈ keywords).

(** The truth value of [key]: neither [None] nor the empty string. *)
Definition truthy (k : option string) : bool :=
  match k with
  | Some s => nonempty s
  | None => false
  end.

(** One iteration of [for line in self._lines]. *)
Definition GetPackages_step (s : pkg_state) (line : string) : result pkg_state :=
  if negb (nonempty line) then
    Ok (PkgState (packages s ++ [package s]) ∅ (key s))
  else if negb (field_match line) && truthy (key s) then
    match key s with
    | Some k =>
        match package s !! k with
        | Some v => Ok (PkgState (packages s) (<[k := v +:+ nl +:+ strip line]> (package s)) (key s))
        | None => Raise "KeyError"
        end
    | None => Ok s
    end
  else
    let k := default "" (head (split ":" line)) in
    if bool_decide (k ∈ keywords) then
      match split ":" line !! 1%nat with
      | Some piece => Ok (PkgState (packages s) (<[k := strip piece]> (package s)) (Some k))
      | None => Raise "IndexError"
      end
    else Ok (PkgState (packages s) (package s) None).

(** [Index.GetPackages], on [self._lines]. *)
Definition GetPackages (lines : list string) : result (list (gmap string string)) :=
  packages <$> foldlM GetPackages_step (PkgState [] ∅ None) lines.

(** ** The collaborators: settings and file system *)

(** [refrapt.settings.Settings], as far as [classes.py] reads it. *)
Record Settings : Type := MkSettings {
  Contents : bool;
  ByHash : bool;
  Force : bool;
  SkelPath : string
}.

(** ** [os.path.splitext], as [posixpath] defines it *)

(** The scan behind [s.rfind(c)]: [last] is the last position of [c]
    before position [i]. *)
Fixpoint rfind_go (c : ascii) (s : string) (i last : Z) : Z :=
  match s with
  | "" => last
  | String x s' => rfind_go c s' (i + 1) (if Ascii.eqb x c then i else last)
  end.

(** [s.rfind(c)]: the last position of [c], or -1. *)
Definition rfind (c : ascii) (s : string) : Z := rfind_go c s 0 (-1).

(** [s[i]], when [i] is a position of [s]. *)
Definition char_at (s : string) (i : Z) : option ascii :=
  if i <? 0 then None else String.get (Z.to_nat i) s.

(** [s[n:]]. *)
Fixpoint slice_from (n : nat) (s : string) : string :=
  match n, s with
  | S k, String _ s' => slice_from k s'
  | _, _ => s
  end.

(** The [while] loop of [_splitext], which passes over the leading dots of
    the file name: [true] when it finds another character before the last
    dot, so that the function splits there. *)
Fixpoint splitext_scan (p : string) (dotIndex : Z) (fuel : nat) (filenameIndex : Z) : bool :=
  match fuel with
  | O => false
  | S k =>
      if filenameIndex <? dotIndex then
        if bool_decide (char_at p filenameIndex ≠ Some "."%char) then true
        else splitext_scan p dotIndex k (filenameIndex + 1)
      else false
  end.

(** [os.path.splitext(p)]: the path up to the last dot of its file name,
    and the extension; the dots that lead the file name do not count. *)
Definition splitext (p : string) : string * string :=
  let sepIndex := rfind "/" p in
  let dotIndex := rfind "." p in
  if (sepIndex <? dotIndex)
     && splitext_scan p dotIndex (Z.to_nat (dotIndex - sepIndex)) (sepIndex + 1)
  then (slice_to (Z.to_nat dotIndex) p, slice_from (Z.to_nat dotIndex) p)
  else (p, "").

Section refrapt.

(** A modification time is a [float] that the code only stores and compares
    with [!=]: any type with a decidable equality, [zero] being [0.0]. *)
Context {Time : Type} `{!EqDecision Time}.
Variable zero : Time.

(** [refrapt.helpers.SanitiseUri], which maps a URL to its path below the
    mirror's directories. *)
Variable SanitiseUri : string → string.

(** [re.match(pattern, text)] of Python's regex engine, as a truth value;
    the patterns that the code builds from a component and an
    architecture are taken to compile. *)
Variable re_match : string → string → bool.

(** What a path names: a regular file or not, its modification time and,
    for a text file, the lines that iterating over it yields. *)
Record file : Type := File {
  regular : bool;
  mtime : Time;
  content : list string
}.

Definition FileSystem : Type := string → option file.

(** [os.path.isfile]. *)
Definition isfile (fs : FileSystem) (path : string) : bool :=
  match fs path with
  | Some f => regular f
  | None => false
  end.

(** [os.path.getmtime]. *)
Definition getmtime (fs : FileSystem) (path : string) : result Time :=
  match fs path with
  | Some f => Ok (mtime f)
  | None => Raise "FileNotFoundError"
  end.

(** [open(path)] and the lines of the file. *)
Definition open_lines (fs : FileSystem) (path : string) : result (list string) :=
  match fs path with
  | Some f => if regular f then Ok (content f) else Raise "IsADirectoryError"
  | None => Raise "FileNotFoundError"
  end.

(** [f"{Settings.SkelPath()}/{file}"]. *)
Definition skel (st : Settings) (file : string) : string :=
  SkelPath st +:+ "/" +:+ file.

(** ** [Timestamp] *)

Record Timestamp : Type := MkTimestamp {
  Current : Time;
  Download : Time
}.

Definition Timestamp_init : Timestamp := MkTimestamp zero zero.

Definition Modified (ts : Timestamp) : bool :=
  bool_decide (Current ts ≠ Download ts).

(** ** [IndexCollection] *)

(** [self._indexCollection]: component, architecture, file, timestamps. *)
Abbreviation IndexCollection := (gmap string (gmap string (gmap string Timestamp))).

(** Reading [ic[component][architecture]]. *)
Definition files_of (ic : IndexCollection) (component architecture : string)
  : gmap string Timestamp :=
  default ∅ (default ∅ (ic !! component) !! architecture).

(** [ic[component][architecture] = files], the [defaultdict] creating the
    component's level when it is missing. *)
Definition set_files (ic : IndexCollection) (component architecture : string)
    (files : gmap string Timestamp) : IndexCollection :=
  <[component := <[architecture := files]> (default ∅ (ic !! component))]> ic.

Definition IndexCollection_init (components architectures : list string)
  : IndexCollection :=
  foldl (λ ic component,
           foldl (λ ic architecture, set_files ic component architecture ∅)
                 ic architectures)
        ∅ components.

Definition Add (ic : IndexCollection) (component architecture file : string)
  : IndexCollection :=
  set_files ic component architecture
    (<[SanitiseUri file := Timestamp_init]> (files_of ic component architecture)).

(** [for k in d: d[k] = body(k, d[k])], where the body may raise: a
    failure ends the loop, and the call. *)
Definition map_traverse {A B} (body : string → A → result B) (m : gmap string A)
  : result (gmap string B) :=
  map_fold (λ k a acc, done ← acc; b ← body k a; Ok (<[k := b]> done)) (Ok ∅) m.

(** The three nested loops over component, architecture and file. *)
Definition for_each_file (body : string → Timestamp → result Timestamp)
    (ic : IndexCollection) : result IndexCollection :=
  map_traverse (λ _ archs, map_traverse (λ _ files, map_traverse body files) archs) ic.

Definition stamp_current (st : Settings) (fs : FileSystem)
    (file : string) (ts : Timestamp) : result Timestamp :=
  if isfile fs (skel st file) then
    t ← getmtime fs (skel st (SanitiseUri file));
    Ok (MkTimestamp t (Download ts))
  else Ok ts.

Definition DetermineCurrentTimestamps (st : Settings) (fs : FileSystem)
    (ic : IndexCollection) : result IndexCollection :=
  for_each_file (stamp_current st fs) ic.

Definition stamp_download (st : Settings) (fs : FileSystem)
    (file : string) (ts : Timestamp) : result Timestamp :=
  if isfile fs (skel st file) then
    t ← getmtime fs (skel st (SanitiseUri file));
    Ok (MkTimestamp (Current ts) t)
  else Ok ts.

(** [removables[component][architecture]]: the files that do not exist
    after the download. *)
Definition removables (st : Settings) (fs : FileSystem)
    (files : gmap string Timestamp) : list string :=
  filter (λ file, isfile fs (skel st file) = false) (map_to_list files).*1.

(** The last loop of [DetermineDownloadTimestamps]: [del] of every file
    marked for removal; [removables] has the keys of the collection. *)
Definition remove_marked (st : Settings) (fs : FileSystem)
    (ic : IndexCollection) : IndexCollection :=
  (λ archs : gmap string (gmap string Timestamp),
     (λ files : gmap string Timestamp,
        foldr delete files (removables st fs files)) <$> archs) <$> ic.

Definition DetermineDownloadTimestamps (st : Settings) (fs : FileSystem)
    (ic : IndexCollection) : result IndexCollection :=
  stamped ← for_each_file (stamp_download st fs) ic;
  Ok (remove_marked st fs stamped).

(** The entries that the three nested loops of the views visit. *)
Definition entries (ic : IndexCollection)
  : list (string * string * string * Timestamp) :=
  '(component, archs) ← map_to_list ic;
  '(architecture, files) ← map_to_list archs;
  '(file, ts) ← map_to_list files;
  [(component, architecture, file, ts)].

(** [list(set(files))]: the names without repetition, in no fixed order. *)
Definition unique (names : list string) : list string :=
  elements (list_to_set (C := gset string) names).

(** The property [Files]. *)
Definition Files (st : Settings) (ic : IndexCollection) : list string :=
  unique ((λ e, (splitext e.1.2).1)
            <$> filter (λ e, Modified e.2 || Force st) (entries ic)).

(** The property [UnmodifiedFiles]. *)
Definition UnmodifiedFiles (ic : IndexCollection) : list string :=
  unique ((λ e, (splitext e.1.2).1)
            <$> filter (λ e, negb (Modified e.2)) (entries ic)).

(** [ic[component][architecture]], when the two keys are there. *)
Definition lookup_files (ic : IndexCollection) (component architecture : string)
  : option (gmap string Timestamp) :=
  archs ← ic !! component; archs !! architecture.

(** [ic[component][architecture][file]], when the three keys are there. *)
Definition lookup_file (ic : IndexCollection) (component architecture file : string)
  : option Timestamp :=
  files ← lookup_files ic component architecture; files !! file.

(** The pair has an entry: [architecture in ic[component]]. *)
Definition declared (ic : IndexCollection) (component architecture : string) : Prop :=
  is_Some (lookup_files ic component architecture).


(** The collections that a program can reach from the constructor by calls
    of the three methods that return. *)
Inductive reachable (components architectures : list string) : IndexCollection → Prop :=
| reach_init :
    reachable components architectures (IndexCollection_init components architectures)
| reach_Add ic component architecture file :
    reachable components architectures ic →
    reachable components architectures (Add ic component architecture file)
| reach_current st fs ic ic' :
    reachable components architectures ic →
    DetermineCurrentTimestamps st fs ic = Ok ic' →
    reachable components architectures ic'
| reach_download st fs ic ic' :
    reachable components architectures ic →
    DetermineDownloadTimestamps st fs ic = Ok ic' →
    reachable components architectures ic'.

(** ** [Source] *)

Inductive SourceType : Type := Bin | Src.

Inductive IndexType : Type := Index | Release | Dep11.

Record Source : Type := MkSource {
  _sourceType : SourceType;
  _architectures : list string;
  _uri : string;
  _distribution : string;
  _components : list string;
  _clean : bool;
  _flatRepository : bool;
  _indexCollection : IndexCollection
}.

(** [l[i]]. *)
Definition item {A} (l : list A) (i : nat) : result A :=
  match l !! i with
  | Some x => Ok x
  | None => Raise "IndexError"
  end.

(** The line without its inline comment. *)
Definition strip_comment (line : string) : string :=
  if contains "#" line then slice_to (index "#" line) line else line.

(** [elements]: the parts of the line between blanks. *)
Definition elements_of (line : string) : list string :=
  fields " " (strip_comment line).

(** [elementIndex]: the position of the URI among the elements. *)
Definition elementIndex_of (line : string) : nat :=
  if contains "[" (strip_comment line) && contains "]" (strip_comment line)
  then 2%nat else 1%nat.

(** [Source.__init__]. *)
Definition Source_init (line defaultArch : string) : result Source :=
  let elements := elements_of line in
  let line := strip_comment line in
  first ← item elements 0;
  let sourceType :=
    if bool_decide (first = "deb") then Bin
    else if contains "deb-src" first then Src else Bin in
  architectures ←
    (if contains "[" line && contains "]" line then
       bracketed ← item (split "[" line) 1;
       archList ← item (split "]" bracketed) 0;
       Ok (split "," (replace "arch=" "" archList))
     else Ok [defaultArch]);
  let elementIndex :=
    if contains "[" line && contains "]" line then 2%nat else 1%nat in
  uri ← item elements elementIndex;
  '(distribution, components, flat) ←
    (if bool_decide (elementIndex + 1 < length elements)%nat then
       distribution ← item elements (elementIndex + 1);
       Ok (distribution, drop (elementIndex + 2) elements, false)
     else Ok ("", ["Flat"], true));
  Ok (MkSource sourceType architectures uri distribution components true flat
               (IndexCollection_init components architectures)).

Definition compressionFormats : list string := [".gz"; ".bz2"; ".xz"].

(** [baseUrl], as [GetIndexes], [GetTranslationIndexes] and
    [GetDep11Files] compute it. *)
Definition dists_url (self : Source) : string :=
  _uri self +:+ "/dists/" +:+ _distribution self +:+ "/".

(** The truth value of a list: it is not empty. *)
Definition nonempty_list {A} (l : list A) : bool :=
  match l with
  | [] => false
  | _ :: _ => true
  end.

(** The locals [indexes] and [self._indexCollection] of [GetIndexes]. *)
Abbreviation walk := (list string * IndexCollection)%type.

(** The body of the loop of the branch commented [# Flat Repositories]. *)
Definition flat_body (self : Source) (w : walk) (compressionFormat : string)
  : result walk :=
  let here := _uri self +:+ "/" +:+ _distribution self in
  let indexes := w.1 ++ [here +:+ "/Sources" +:+ compressionFormat;
                         here +:+ "/Packages" +:+ compressionFormat] in
  component ← item (_components self) 0;
  architecture ← item (_architectures self) 0;
  let ic := Add w.2 component architecture (here +:+ "/Sources" +:+ compressionFormat) in
  component ← item (_components self) 0;
  architecture ← item (_architectures self) 0;
  Ok (indexes, Add ic component architecture (here +:+ "/Packages" +:+ compressionFormat)).

(** The release files, and for a [Source] without components the indexes
    of a flat repository. *)
Definition release_indexes (self : Source) : result walk :=
  let baseUrl := dists_url self in
  let here := _uri self +:+ "/" +:+ _distribution self in
  if nonempty_list (_components self) then
    Ok ([baseUrl +:+ "InRelease"; baseUrl +:+ "Release"; baseUrl +:+ "Release.gpg"],
        _indexCollection self)
  else
    foldlM (flat_body self)
           ([here +:+ "/InRelease"; here +:+ "/Release"; here +:+ "/Release.gpg"],
            _indexCollection self)
           compressionFormats.

(** Binary mirror: the body of the loop over the compression formats of
    one component and architecture. *)
Definition packages_body (baseUrl component architecture : string)
    (w : walk) (compressionFormat : string) : walk :=
  let packagesUrl :=
    baseUrl +:+ component +:+ "/binary-" +:+ architecture +:+ "/Packages" +:+ compressionFormat in
  (w.1 ++ [packagesUrl;
           baseUrl +:+ component +:+ "/cnf/Commands-" +:+ architecture +:+ compressionFormat;
           baseUrl +:+ component +:+ "/i18n/cnf/Commands-" +:+ architecture +:+ compressionFormat],
   Add w.2 component architecture packagesUrl).

Definition architecture_body (st : Settings) (baseUrl component : string)
    (w : walk) (architecture : string) : walk :=
  let indexes :=
    if Contents st
    then w.1 ++ ((λ compressionFormat,
                    baseUrl +:+ component +:+ "/Contents-" +:+ architecture +:+ compressionFormat)
                   <$> compressionFormats)
    else w.1 in
  let indexes :=
    indexes ++ [baseUrl +:+ component +:+ "/binary-" +:+ architecture +:+ "/Release"] in
  foldl (packages_body baseUrl component architecture) (indexes, w.2) compressionFormats.

Definition component_body (st : Settings) (self : Source) (baseUrl : string)
    (w : walk) (component : string) : walk :=
  let w := foldl (architecture_body st baseUrl component) w (_architectures self) in
  (w.1 ++ [baseUrl +:+ component +:+ "/i18n/Index"], w.2).

Definition binary_indexes (st : Settings) (self : Source) (w : walk) : walk :=
  let baseUrl := dists_url self in
  if nonempty_list (_components self) then
    let indexes :=
      if Contents st
      then w.1 ++ (architecture ← _architectures self;
                   (λ compressionFormat,
                      baseUrl +:+ "Contents-" +:+ architecture +:+ compressionFormat)
                     <$> compressionFormats)
      else w.1 in
    foldl (component_body st self baseUrl) (indexes, w.2) (_components self)
  else w.

(** Source mirror: the body of the loop over the compression formats of
    one component. *)
Definition sources_body (self : Source) (baseUrl component : string)
    (w : walk) (compressionFormat : string) : result walk :=
  let sourcesUrl := baseUrl +:+ component +:+ "/source/Sources" +:+ compressionFormat in
  architecture ← item (_architectures self) 0;
  Ok (w.1 ++ [sourcesUrl], Add w.2 component architecture sourcesUrl).

Definition source_indexes (self : Source) (w : walk) : result walk :=
  let baseUrl := dists_url self in
  if nonempty_list (_components self) then
    foldlM (λ w component,
              foldlM (sources_body self baseUrl component)
                     (w.1 ++ [baseUrl +:+ component +:+ "/source/Release"], w.2)
                     compressionFormats)
           w (_components self)
  else Ok w.

Definition with_indexCollection (self : Source) (ic : IndexCollection) : Source :=
  MkSource (_sourceType self) (_architectures self) (_uri self) (_distribution self)
           (_components self) (_clean self) (_flatRepository self) ic.

(** The body of [GetIndexes] up to the capture of the timestamps. *)
Definition index_walk (st : Settings) (self : Source) : result walk :=
  w ← release_indexes self;
  match _sourceType self with
  | Bin => Ok (binary_indexes st self w)
  | Src => source_indexes self w
  end.

(** [Source.GetIndexes]: the list it returns and the object afterwards. *)
Definition GetIndexes (st : Settings) (fs : FileSystem) (self : Source)
  : result (list string * Source) :=
  w ← index_walk st self;
  ic ← DetermineCurrentTimestamps st fs w.2;
  Ok (w.1, with_indexCollection self ic).




(** [Source.GetReleaseFiles]. *)
Definition GetReleaseFiles (st : Settings) (self : Source) (modified : bool)
  : list string :=
  if modified then Files st (_indexCollection self)
  else UnmodifiedFiles (_indexCollection self).

(** *** The scanner of checksum blocks, [Source.__ProcessLine] *)

(** The locals [checksums], [checksumType] and [indexes]; [checksumType]
    is unbound until a line names a checksum. *)
Record scan_state : Type := ScanState {
  checksums : bool;
  checksumType : option string;
  indexes : list string
}.

Definition has_label (line : string) : bool :=
  contains "SHA256:" line || contains "SHA1:" line || contains "MD5Sum:" line.

(** No line feed, except as the last character. *)
Fixpoint single_line (s : string) : bool :=
  match s with
  | "" => true
  | String c s' => if Ascii.eqb c LF then negb (nonempty s') else single_line s'
  end.

(** The pattern that [re.search] looks for in a line of a checksum block
    (start of line, one or more blanks, any characters, end of line): a
    blank at the start, and then no line feed before the one that may end
    the line. *)
Definition record_pattern (line : string) : bool :=
  match line with
  | String " " rest => single_line rest
  | _ => false
  end.

(** Reading a local that may be unbound. *)
Definition bound (name : option string) : result string :=
  match name with
  | Some s => Ok s
  | None => Raise "UnboundLocalError"
  end.

Definition translation_pattern (component : string) : string :=
  component +:+ "/i18n/Translation-[^./]*\.(gz|bz2|xz)$".

Definition dep11_pattern (component arch : string) : string :=
  component +:+ "/dep11/(Components-" +:+ arch +:+ "\.yml|icons-[^./]+\.tar)\.(gz|bz2|xz)$".

(** While in a block, [checksumType] is bound. *)
Definition label_bound (s : scan_state) : Prop :=
  checksums s = true → is_Some (checksumType s).

(** [checksumType] after the first statement of the loop body. *)
Definition label_after (checksumType : option string) (line : string) : option string :=
  if has_label line then Some (strip (replace ":" "" line)) else checksumType.

(** One iteration of [for line in f]. *)
Definition ProcessLine_step (st : Settings) (self : Source) (indexType : IndexType)
    (indexUri baseUri component : string) (s : scan_state) (line : string)
  : result scan_state :=
  let checksumType := label_after (checksumType s) line in
  if checksums s then
    if record_pattern line then
      match fields " " line with
      | [part0; part1; part2] =>
          let checksum := strip part0 in
          let filename := rstrip part2 in
          match indexType with
          | Release =>
              if re_match (translation_pattern component) filename then
                let found := indexes s ++ [indexUri +:+ filename] in
                if ByHash st then
                  label ← bound checksumType;
                  Ok (ScanState true checksumType
                        (found ++ [indexUri +:+ component +:+ "/i18n/by-hash/"
                                   +:+ label +:+ "/" +:+ checksum]))
                else Ok (ScanState true checksumType found)
              else Ok (ScanState true checksumType (indexes s))
          | Dep11 =>
              let found :=
                foldl (λ found arch,
                         if re_match (dep11_pattern component arch) filename
                         then found ++ [indexUri +:+ filename] else found)
                      (indexes s) (_architectures self) in
              if ByHash st then
                label ← bound checksumType;
                Ok (ScanState true checksumType
                      (found ++ [indexUri +:+ component +:+ "/dep11/by-hash/"
                                 +:+ label +:+ "/" +:+ checksum]))
              else Ok (ScanState true checksumType found)
          | Index =>
              Ok (ScanState true checksumType (indexes s ++ [baseUri +:+ filename]))
          end
      | _ => Ok (ScanState true checksumType (indexes s))
      end
    else Ok (ScanState false checksumType (indexes s))
  else Ok (ScanState (has_label line) checksumType (indexes s)).

(** The loop over the lines, from a state of the scanner. *)
Definition scan (st : Settings) (self : Source) (indexType : IndexType)
    (indexUri baseUri component : string) (s : scan_state) (lines : list string)
  : result scan_state :=
  foldlM (ProcessLine_step st self indexType indexUri baseUri component) s lines.

Definition scan_start : scan_state := ScanState false None [].

Definition ProcessLine (st : Settings) (fs : FileSystem) (self : Source)
    (file : string) (indexType : IndexType) (indexUri baseUri component : string)
  : result (list string) :=
  lines ← open_lines fs file;
  indexes <$> scan st self indexType indexUri baseUri component scan_start lines.

(** [Source.__ProcessTranslationIndex]. *)
Definition ProcessTranslationIndex (st : Settings) (fs : FileSystem) (self : Source)
    (url component : string) : result (list string) :=
  let baseUri := url +:+ component +:+ "/i18n/" in
  let indexUri := baseUri +:+ "Index" in
  let indexPath := SkelPath st +:+ "/" +:+ SanitiseUri indexUri in
  if negb (isfile fs indexPath) then
    let releasePath := SkelPath st +:+ "/" +:+ SanitiseUri (url +:+ "Release") in
    ProcessLine st fs self releasePath Release url "" component
  else ProcessLine st fs self indexPath Index indexUri baseUri "".

(** [Source.GetTranslationIndexes]. *)
Definition GetTranslationIndexes (st : Settings) (fs : FileSystem) (self : Source)
  : result (list string) :=
  match _sourceType self with
  | Src => Ok []
  | Bin =>
      let baseUrl := dists_url self in
      foldlM (λ translationIndexes component,
                found ← ProcessTranslationIndex st fs self baseUrl component;
                Ok (translationIndexes ++ found))
             [] (_components self)
  end.

(** [Source.GetDep11Files]. *)
Definition GetDep11Files (st : Settings) (fs : FileSystem) (self : Source)
  : result (list string) :=
  match _sourceType self with
  | Src => Ok []
  | Bin =>
      let baseUrl := dists_url self in
      let releasePath := SkelPath st +:+ "/" +:+ SanitiseUri (baseUrl +:+ "Release") in
      foldlM (λ dep11Files component,
                found ← ProcessLine st fs self releasePath Dep11 baseUrl "" component;
                Ok (dep11Files ++ found))
             [] (_components self)
  end.

(** The property [Source.Modified]. *)
Definition Source_Modified (st : Settings) (self : Source) : bool :=
  bool_decide (0 < length (Files st (_indexCollection self)))%nat.

(** Every file of the collection of a walk was in the collection [ic0] or
    is the sanitised form of a URL of the list of the walk. *)
Definition tracked (ic0 : IndexCollection) (w : walk) : Prop :=
  ∀ component architecture file ts,
    lookup_file w.2 component architecture file = Some ts →
    is_Some (lookup_file ic0 component architecture file)
    ∨ ∃ url, url ∈ w.1 ∧ file = SanitiseUri url.

End refrapt.

Abbreviation IndexCollection := (gmap string (gmap string (gmap string Timestamp))).
Abbreviation walk := (list string * IndexCollection)%type.

(** ** [Downloader] *)

(** The settings that [Downloader.CustomArguments] reads; a text that is
    not set is the empty string. *)
Record WgetSettings : Type := MkWgetSettings {
  AuthNoChallege : bool;
  NoCheckCertificate : bool;
  Unlink : bool;
  Certificate : string;
  CaCertificate : string;
  PrivateKey : string;
  UseProxy : bool;
  HttpProxy : string;
  HttpsProxy : string;
  ProxyUser : string;
  ProxyPassword : string
}.

(** [if test: arguments.append(argument)]. *)
Definition append_if (test : bool) (argument : string) (arguments : list string)
  : list string :=
  if test then arguments ++ [argument] else arguments.

(** [Downloader.CustomArguments]. *)
Definition CustomArguments (w : WgetSettings) : list string :=
  let arguments := [] in
  let arguments := append_if (AuthNoChallege w) "--auth-no-challenge" arguments in
  let arguments := append_if (NoCheckCertificate w) "--no-check-certificate" arguments in
  let arguments := append_if (Unlink w) "--unlink" arguments in
  let arguments :=
    append_if (nonempty (Certificate w)) ("--certificate=" +:+ Certificate w) arguments in
  let arguments :=
    append_if (nonempty (CaCertificate w)) ("--ca-certificate=" +:+ CaCertificate w)
              arguments in
  let arguments :=
    append_if (nonempty (PrivateKey w)) ("--privateKey=" +:+ PrivateKey w) arguments in
  if UseProxy w then
    let arguments := arguments ++ ["-e use_proxy=yes"] in
    let arguments :=
      append_if (nonempty (HttpProxy w)) ("-e http_proxy=" +:+ HttpProxy w) arguments in
    let arguments :=
      append_if (nonempty (HttpsProxy w)) ("-e https_proxy=" +:+ HttpsProxy w) arguments in
    let arguments :=
      append_if (nonempty (ProxyUser w)) ("-e proxy_user=" +:+ ProxyUser w) arguments in
    append_if (nonempty (ProxyPassword w)) ("-e proxy_password=" +:+ ProxyPassword w)
              arguments
  else arguments.

(** ** Sample data for the examples *)

Definition settings_plain : Settings := MkSettings false false false "/skel".
Definition settings_force : Settings := MkSettings false false true "/skel".
Definition settings_by_hash : Settings := MkSettings false true false "/skel".

(** A sanitiser that keeps the URL. *)
Definition keep_uri (uri : string) : string := uri.

(** A regex engine that matches nothing. *)
Definition no_match (pattern text : string) : bool := false.

(** Disks, with modification times in [Z]. *)
Definition empty_disk : @FileSystem Z := λ _, None.

Definition disk_with (path : string) (f : @file Z) (fs : @FileSystem Z) : @FileSystem Z :=
  λ p, if bool_decide (p = path) then Some f else fs p.

Definition unwrap {A} (d : A) (r : result A) : A :=
  match r with
  | Ok a => a
  | Raise _ => d
  end.

Definition no_source : @Source Z := MkSource Bin [] "" "" [] true false ∅.

(** A mirror of one component, and its [Packages.gz] on disk. *)
Definition debian_line : string := "deb http://example.com/debian stable main".
Definition debian_source : @Source Z := unwrap no_source (Source_init debian_line "amd64").
Definition packages_gz : string :=
  "http://example.com/debian/dists/stable/main/binary-amd64/Packages.gz".
Definition packages_xz : string :=
  "http://example.com/debian/dists/stable/main/binary-amd64/Packages.xz".
Definition debian_disk : @FileSystem Z :=
  disk_with ("/skel/" +:+ packages_gz) (File true 5 []) empty_disk.

(** The collection of the mirror after [GetIndexes] has registered the
    files, after the pass before the download and after the pass that
    follows it. *)
Definition debian_registered : gmap string (gmap string (gmap string (@Timestamp Z))) :=
  (unwrap ([], ∅) (index_walk 0 keep_uri settings_plain debian_source)).2.
Definition debian_before : gmap string (gmap string (gmap string (@Timestamp Z))) :=
  unwrap ∅ (DetermineCurrentTimestamps keep_uri settings_plain debian_disk debian_registered).
Definition debian_after : gmap string (gmap string (gmap string (@Timestamp Z))) :=
  unwrap ∅ (DetermineDownloadTimestamps keep_uri settings_plain debian_disk debian_before).

(** A collection with one file that the server does not offer. *)
Definition lonely_registered : gmap string (gmap string (gmap string (@Timestamp Z))) :=
  Add 0 keep_uri (IndexCollection_init ["main"] ["amd64"]) "main" "amd64" packages_xz.
Definition lonely_before : gmap string (gmap string (gmap string (@Timestamp Z))) :=
  unwrap ∅ (DetermineCurrentTimestamps keep_uri settings_plain empty_disk lonely_registered).
Definition lonely_after : gmap string (gmap string (gmap string (@Timestamp Z))) :=
  unwrap ∅ (DetermineDownloadTimestamps keep_uri settings_plain empty_disk lonely_before).

(** What the first call of [GetIndexes] returns for the mirror, with
    nothing on disk. *)
Definition debian_indexes : list string * @Source Z :=
  unwrap ([], no_source) (GetIndexes 0 keep_uri settings_plain empty_disk debian_source).


(** A [Release] file with one checksum block. *)
Definition release_lines : list string :=
  ["Origin: Debian" +:+ nl;
   "SHA256:" +:+ nl;
   " 0a1b2c 1024 main/binary-amd64/Packages.gz" +:+ nl].
Definition release_disk : @FileSystem Z :=
  disk_with "/skel/http://example.com/debian/dists/stable/Release"
            (File true 7 release_lines) empty_disk.

(** A file without the label of a checksum. *)
Definition origin_lines : list string :=
  ["Origin: Debian" +:+ nl; " 0a1b2c 1024 main/binary-amd64/Packages.gz" +:+ nl].
Definition origin_disk : @FileSystem Z :=
  disk_with "/skel/http://example.com/debian/dists/stable/Release"
            (File true 7 origin_lines) empty_disk.

(** A flat repository. *)
Definition flat_line : string := "deb http://example.com/repo".
Definition flat_source : @Source Z := unwrap no_source (Source_init flat_line "amd64").

(** A package index of one stanza, and its record. *)
Definition index_lines : list string := ["Filename: a/b.deb"; "Size: 100"; ""].
Definition index_record : gmap string string :=
  {[ "Filename" := "a/b.deb"; "Size" := "100" ]}.

(** The bytes of a file of two lines, the first with a space and an em
    space (E2 80 83 in UTF-8) at its end, the second of two spaces. *)
Definition wide_contents : string :=
  "Size: 100 " +:+ String "226" (String "128" (String "131" nl)) +:+ "  " +:+ nl.

(** Settings of wget: a proxy and no check of the certificate. *)
Definition wget_proxy : WgetSettings :=
  MkWgetSettings false true false "" "" "" true "proxy.example.com" "" "" "".

(** * Properties *)

Section properties.

Context {Time : Type} `{!EqDecision Time}.
Variable zero : Time.
Variable SanitiseUri : string → string.
Variable re_match : string → string → bool.

Implicit Types ic : gmap string (gmap string (gmap string (@Timestamp Time))).
Implicit Types files : gmap string (@Timestamp Time).
Implicit Types ts : @Timestamp Time.
Implicit Types fs : @FileSystem Time.
Implicit Types st : Settings.
Implicit Types self : @Source Time.

(** ** Loops over a dictionary *)

Lemma map_traverse_spec {A B} (body : string → A → result B) (m : gmap string A) :
  match map_traverse body m with
  | Ok m' => ∀ k, match m !! k with
                  | Some a => ∃ b, body k a = Ok b ∧ m' !! k = Some b
                  | None => m' !! k = None
                  end
  | Raise e => ∃ k a, m !! k = Some a ∧ body k a = Raise e
  end.
Proof.
  unfold map_traverse.
  apply (map_fold_weak_ind (λ r m,
    match r with
    | Ok m' => ∀ k, match m !! k with
                    | Some a => ∃ b, body k a = Ok b ∧ m' !! k = Some b
                    | None => m' !! k = None
                    end
    | Raise e => ∃ k a, m !! k = Some a ∧ body k a = Raise e
    end)).
  - intros k. by rewrite !lookup_empty.
  - intros i x m0 r Hi IH. destruct r as [acc|e]; simpl.
    + destruct (body i x) as [b|e] eqn:Hb; simpl.
      * intros k. destruct (decide (i = k)) as [<-|Hne].
        -- rewrite !lookup_insert_eq. eauto.
        -- rewrite !lookup_insert_ne by done. apply IH.
      * exists i, x. by rewrite lookup_insert_eq.
    + destruct IH as (k & a & Hk & Hr). exists k, a. split; [|done].
      rewrite lookup_insert_ne; [done|]. intros ->. congruence.
Qed.

Lemma map_traverse_Ok {A B} (body : string → A → result B) (m : gmap string A) m' k :
  map_traverse body m = Ok m' →
  match m !! k with
  | Some a => ∃ b, body k a = Ok b ∧ m' !! k = Some b
  | None => m' !! k = None
  end.
Proof.
  intros H. pose proof (map_traverse_spec body m) as Hs. rewrite H in Hs. apply Hs.
Qed.

Lemma map_traverse_total {A B} (body : string → A → result B) (m : gmap string A) :
  (∀ k a, m !! k = Some a → ∃ b, body k a = Ok b) →
  ∃ m', map_traverse body m = Ok m'.
Proof.
  intros Hall. pose proof (map_traverse_spec body m) as Hs.
  destruct (map_traverse body m) as [m'|e]; [by eexists|].
  destruct Hs as (k & a & Hk & Hr). destruct (Hall k a Hk) as [b Hb]. congruence.
Qed.

Lemma foldl_invariant {A B} (P : A → Prop) (f : A → B → A) (l : list B) (a : A) :
  P a → (∀ a x, P a → x ∈ l → P (f a x)) → P (foldl f a l).
Proof.
  revert a. induction l as [|x l IH]; intros a Ha Hstep; simpl; [done|].
  apply IH.
  - apply Hstep; [done|]. by left.
  - intros a' y Ha' Hy. apply Hstep; [done|]. by right.
Qed.

(** ** The three levels of the collection *)

Lemma lookup_files_set_files ic c a files c' a' :
  lookup_files (set_files ic c a files) c' a'
  = if decide (c = c' ∧ a = a') then Some files else lookup_files ic c' a'.
Proof.
  unfold lookup_files, set_files.
  destruct (decide (c = c')) as [<-|Hc].
  - rewrite lookup_insert_eq. simpl.
    destruct (decide (a = a')) as [<-|Ha].
    + rewrite lookup_insert_eq. by rewrite decide_True.
    + rewrite lookup_insert_ne by done.
      rewrite decide_False by (by intros [_ ?]).
      by destruct (ic !! c).
  - rewrite lookup_insert_ne by done. by rewrite decide_False by (by intros [? _]).
Qed.

Lemma files_of_lookup_files ic c a :
  files_of ic c a = default ∅ (lookup_files ic c a).
Proof.
  unfold files_of, lookup_files. by destruct (ic !! c).
Qed.

Lemma declared_set_files ic c a files c' a' :
  declared ic c' a' → declared (set_files ic c a files) c' a'.
Proof.
  unfold declared. rewrite lookup_files_set_files. by case_decide.
Qed.

Lemma declared_set_files_here ic c a files : declared (set_files ic c a files) c a.
Proof.
  unfold declared. rewrite lookup_files_set_files. by rewrite decide_True.
Qed.

Lemma lookup_file_Add ic c a file c' a' f :
  lookup_file (Add zero SanitiseUri ic c a file) c' a' f
  = if decide (c = c' ∧ a = a')
    then if decide (SanitiseUri file = f) then Some (Timestamp_init zero)
         else lookup_file ic c a f
    else lookup_file ic c' a' f.
Proof.
  unfold lookup_file, Add. rewrite lookup_files_set_files.
  case_decide as Hca; [|done]. simpl.
  destruct (decide (SanitiseUri file = f)) as [<-|Hf].
  - by rewrite lookup_insert_eq.
  - rewrite lookup_insert_ne by done. rewrite files_of_lookup_files.
    by destruct (lookup_files ic c a).
Qed.

Lemma declared_Add ic c a file c' a' :
  declared ic c' a' → declared (Add zero SanitiseUri ic c a file) c' a'.
Proof. apply declared_set_files. Qed.

Lemma declared_init_architectures ic c (architectures : list string) a :
  a ∈ architectures →
  declared (foldl (λ ic architecture, set_files ic c architecture ∅) ic architectures) c a.
Proof.
  revert ic. induction architectures as [|a0 architectures IH]; intros ic Ha; [by inv Ha|].
  simpl. apply elem_of_cons in Ha as [->|Ha]; [|by apply IH].
  apply foldl_invariant; [apply declared_set_files_here|].
  intros ic' a1 Hd _. by apply declared_set_files.
Qed.

Lemma declared_init (components architectures : list string) c a :
  c ∈ components → a ∈ architectures →
  declared (IndexCollection_init (Time := Time) components architectures) c a.
Proof.
  unfold IndexCollection_init. intros Hc Ha.
  revert Hc. generalize (∅ : gmap string (gmap string (gmap string (@Timestamp Time)))).
  induction components as [|c0 components IH]; intros ic Hc; [by inv Hc|].
  simpl. apply elem_of_cons in Hc as [->|Hc]; [|by apply IH].
  apply foldl_invariant; [by apply declared_init_architectures|].
  intros ic' c1 Hd _. apply foldl_invariant; [done|].
  intros ic'' a1 Hd' _. by apply declared_set_files.
Qed.

Lemma lookup_file_init (components architectures : list string) c a f :
  lookup_file (IndexCollection_init (Time := Time) components architectures) c a f = None.
Proof.
  unfold IndexCollection_init.
  apply (foldl_invariant (λ ic, lookup_file ic c a f = None)); [done|].
  intros ic c0 Hic _.
  apply (foldl_invariant (λ ic, lookup_file ic c a f = None)); [done|].
  intros ic' a0 Hic' _. unfold lookup_file in *.
  rewrite lookup_files_set_files. by case_decide.
Qed.

Lemma for_each_file_files body ic ic' c a :
  for_each_file body ic = Ok ic' →
  match lookup_files ic c a with
  | Some files => ∃ files', map_traverse body files = Ok files'
                            ∧ lookup_files ic' c a = Some files'
  | None => lookup_files ic' c a = None
  end.
Proof.
  unfold for_each_file, lookup_files. intros H.
  pose proof (map_traverse_Ok _ _ _ c H) as Hc.
  destruct (ic !! c) as [archs|]; simpl.
  - destruct Hc as (archs' & Harchs & ->). simpl.
    pose proof (map_traverse_Ok _ _ _ a Harchs) as Ha.
    destruct (archs !! a) as [files|]; [|done].
    destruct Ha as (files' & ? & ?). eauto.
  - by rewrite Hc.
Qed.

Lemma for_each_file_declared body ic ic' c a :
  for_each_file body ic = Ok ic' → declared ic' c a ↔ declared ic c a.
Proof.
  intros H. pose proof (for_each_file_files _ _ _ c a H) as Hf. unfold declared.
  destruct (lookup_files ic c a).
  - destruct Hf as (? & _ & ->). split; eauto.
  - rewrite Hf. done.
Qed.

Lemma for_each_file_lookup body ic ic' c a f :
  for_each_file body ic = Ok ic' →
  match lookup_file ic c a f with
  | Some ts => ∃ ts', body f ts = Ok ts' ∧ lookup_file ic' c a f = Some ts'
  | None => lookup_file ic' c a f = None
  end.
Proof.
  intros H. pose proof (for_each_file_files _ _ _ c a H) as Hf. unfold lookup_file.
  destruct (lookup_files ic c a) as [files|]; simpl.
  - destruct Hf as (files' & Hfiles & ->). simpl.
    apply (map_traverse_Ok _ _ _ f Hfiles).
  - by rewrite Hf.
Qed.

Lemma for_each_file_total body ic :
  (∀ c a f ts, lookup_file ic c a f = Some ts → ∃ ts', body f ts = Ok ts') →
  ∃ ic', for_each_file body ic = Ok ic'.
Proof.
  intros Hall. unfold for_each_file. apply map_traverse_total.
  intros c archs Hc. apply map_traverse_total.
  intros a files Ha. apply map_traverse_total.
  intros f ts Hf. apply (Hall c a f ts).
  unfold lookup_file, lookup_files. rewrite Hc. simpl. rewrite Ha. done.
Qed.

Lemma elem_of_removables st fs files f :
  f ∈ removables st fs files ↔ isfile fs (skel st f) = false ∧ is_Some (files !! f).
Proof.
  unfold removables. rewrite list_elem_of_filter, list_elem_of_fmap.
  split.
  - intros [Hf ([k ts] & -> & Hin)]. split; [done|].
    apply elem_of_map_to_list in Hin. by exists ts.
  - intros [Hf [ts Hts]]. split; [done|]. exists (f, ts). split; [done|].
    by apply elem_of_map_to_list.
Qed.

Lemma lookup_files_remove_marked st fs ic c a :
  lookup_files (remove_marked st fs ic) c a
  = (λ files, foldr delete files (removables st fs files)) <$> lookup_files ic c a.
Proof.
  unfold lookup_files, remove_marked. rewrite lookup_fmap.
  destruct (ic !! c) as [archs|]; simpl; [|done]. by rewrite lookup_fmap.
Qed.

Lemma lookup_file_remove_marked st fs ic c a f :
  lookup_file (remove_marked st fs ic) c a f
  = if isfile fs (skel st f) then lookup_file ic c a f else None.
Proof.
  unfold lookup_file. rewrite lookup_files_remove_marked.
  destruct (lookup_files ic c a) as [files|]; simpl; [|by destruct (isfile _ _)].
  destruct (isfile fs (skel st f)) eqn:Hf.
  - apply lookup_foldr_delete_not_elem_of. rewrite elem_of_removables.
    intros [? _]. congruence.
  - destruct (files !! f) as [ts|] eqn:Hts.
    + apply lookup_foldr_delete. apply elem_of_removables. eauto.
    + rewrite lookup_foldr_delete_not_elem_of; [done|].
      rewrite elem_of_removables. intros [_ [? ?]]. congruence.
Qed.

Lemma declared_remove_marked st fs ic c a :
  declared (remove_marked st fs ic) c a ↔ declared ic c a.
Proof.
  unfold declared. rewrite lookup_files_remove_marked.
  destruct (lookup_files ic c a); simpl; split; intros [? ?]; by eauto.
Qed.

(** ** The two passes over the disk *)

Lemma DetermineCurrentTimestamps_lookup st fs ic ic' c a f :
  DetermineCurrentTimestamps SanitiseUri st fs ic = Ok ic' →
  match lookup_file ic c a f with
  | Some ts => ∃ ts', stamp_current SanitiseUri st fs f ts = Ok ts'
                      ∧ lookup_file ic' c a f = Some ts'
  | None => lookup_file ic' c a f = None
  end.
Proof. apply for_each_file_lookup. Qed.

Lemma DetermineCurrentTimestamps_declared st fs ic ic' c a :
  DetermineCurrentTimestamps SanitiseUri st fs ic = Ok ic' →
  declared ic' c a ↔ declared ic c a.
Proof. apply for_each_file_declared. Qed.

Lemma DetermineDownloadTimestamps_lookup st fs ic ic' c a f :
  DetermineDownloadTimestamps SanitiseUri st fs ic = Ok ic' →
  lookup_file ic' c a f
  = if isfile fs (skel st f)
    then ts ← lookup_file ic c a f;
         match getmtime fs (skel st (SanitiseUri f)) with
         | Ok t => Some (MkTimestamp (Current ts) t)
         | Raise _ => None
         end
    else None.
Proof.
  unfold DetermineDownloadTimestamps. intros H.
  destruct (for_each_file _ ic) as [stamped|e] eqn:Hs; simpl in H; [|done].
  injection H as <-. rewrite lookup_file_remove_marked.
  destruct (isfile fs (skel st f)) eqn:Hf; [|done].
  pose proof (for_each_file_lookup _ _ _ c a f Hs) as Hl.
  destruct (lookup_file ic c a f) as [ts|]; simpl; [|done].
  destruct Hl as (ts' & Hbody & ->). unfold stamp_download in Hbody.
  rewrite Hf in Hbody.
  destruct (getmtime fs (skel st (SanitiseUri f))); simpl in Hbody; congruence.
Qed.

Lemma DetermineDownloadTimestamps_declared st fs ic ic' c a :
  DetermineDownloadTimestamps SanitiseUri st fs ic = Ok ic' →
  declared ic' c a ↔ declared ic c a.
Proof.
  unfold DetermineDownloadTimestamps. intros H.
  destruct (for_each_file _ ic) as [stamped|e] eqn:Hs; simpl in H; [|done].
  injection H as <-. rewrite declared_remove_marked.
  by apply (for_each_file_declared _ _ _ _ _ Hs).
Qed.

(** ** The two views *)

Lemma elem_of_entries ic c a f ts :
  (c, a, f, ts) ∈ entries ic ↔ lookup_file ic c a f = Some ts.
Proof.
  unfold entries, lookup_file, lookup_files. rewrite list_elem_of_bind. split.
  - intros ([c' archs] & Hin & Hc). apply elem_of_map_to_list in Hc.
    apply list_elem_of_bind in Hin as ([a' files] & Hin & Ha).
    apply elem_of_map_to_list in Ha.
    apply list_elem_of_bind in Hin as ([f' ts'] & Hin & Hf).
    apply elem_of_map_to_list in Hf.
    apply list_elem_of_singleton in Hin. simplify_eq.
    rewrite Hc. simpl. rewrite Ha. done.
  - intros H. destruct (ic !! c) as [archs|] eqn:Hc; [|done]. simpl in H.
    destruct (archs !! a) as [files|] eqn:Ha; [|done]. simpl in H.
    exists (c, archs). split; [|by apply elem_of_map_to_list].
    apply list_elem_of_bind. exists (a, files). split; [|by apply elem_of_map_to_list].
    apply list_elem_of_bind. exists (f, ts). split; [|by apply elem_of_map_to_list].
    by apply list_elem_of_singleton.
Qed.

Lemma elem_of_unique (names : list string) x : x ∈ unique names ↔ x ∈ names.
Proof. unfold unique. by rewrite elem_of_elements, elem_of_list_to_set. Qed.

Lemma NoDup_unique (names : list string) : NoDup (unique names).
Proof. unfold unique. apply NoDup_elements. Qed.

Lemma elem_of_Files st ic x :
  x ∈ Files st ic ↔
  ∃ c a f ts, lookup_file ic c a f = Some ts
              ∧ (Modified ts = true ∨ Force st = true) ∧ (splitext f).1 = x.
Proof.
  unfold Files. rewrite elem_of_unique, list_elem_of_fmap. split.
  - intros ([[[c a] f] ts] & -> & Hin). apply list_elem_of_filter in Hin as [Hp Hin].
    apply elem_of_entries in Hin. simpl in *. exists c, a, f, ts.
    split; [done|]. split; [|done].
    apply orb_prop_elim in Hp as [?%Is_true_true|?%Is_true_true]; auto.
  - intros (c & a & f & ts & Hl & Hp & <-). exists (c, a, f, ts). split; [done|].
    apply list_elem_of_filter. split; [|by apply elem_of_entries]. simpl.
    apply orb_prop_intro. destruct Hp as [->| ->]; simpl; auto.
Qed.

Lemma elem_of_UnmodifiedFiles ic x :
  x ∈ UnmodifiedFiles ic ↔
  ∃ c a f ts, lookup_file ic c a f = Some ts
              ∧ Modified ts = false ∧ (splitext f).1 = x.
Proof.
  unfold UnmodifiedFiles. rewrite elem_of_unique, list_elem_of_fmap. split.
  - intros ([[[c a] f] ts] & -> & Hin). apply list_elem_of_filter in Hin as [Hp Hin].
    apply elem_of_entries in Hin. simpl in *. exists c, a, f, ts.
    split; [done|]. split; [|done]. by destruct (Modified ts).
  - intros (c & a & f & ts & Hl & Hp & <-). exists (c, a, f, ts). split; [done|].
    apply list_elem_of_filter. split; [|by apply elem_of_entries]. simpl.
    by rewrite Hp.
Qed.

(** C10: [UnmodifiedFiles] does not read the force flag.  With the flag
    set, a registered file whose two timestamps are equal is listed (by
    its name without extension) in [UnmodifiedFiles] and at the same time
    in [Files], which then lists every registered file: the two views
    are not disjoint. *)
Theorem UnmodifiedFiles_ignores_force st ic c a f ts :
  Force st = true →
  lookup_file ic c a f = Some ts →
  Current ts = Download ts →
  (splitext f).1 ∈ UnmodifiedFiles ic
  ∧ (splitext f).1 ∈ Files st ic
  ∧ (∀ c' a' f' ts', lookup_file ic c' a' f' = Some ts' → (splitext f').1 ∈ Files st ic).
Proof.
  intros Hforce Hl Heq. split; [|split].
  - apply elem_of_UnmodifiedFiles. exists c, a, f, ts. split; [done|]. split; [|done].
    unfold Modified. by rewrite bool_decide_eq_false_2 by (intros ?; done).
  - apply elem_of_Files. exists c, a, f, ts. auto.
  - intros c' a' f' ts' Hl'. apply elem_of_Files. exists c', a', f', ts'. auto.
Qed.

(** C8: every pair of a component and an architecture given to the
    constructor keeps its entry, a dictionary of files that may be empty,
    after the constructor and after any calls of [Add],
    [DetermineCurrentTimestamps] and [DetermineDownloadTimestamps]; when
    the pass after the download finds none of the files, the entry is
    the empty dictionary. *)
Theorem declared_pairs_persist (components architectures : list string) ic c a :
  reachable zero SanitiseUri components architectures ic →
  c ∈ components → a ∈ architectures →
  declared ic c a
  ∧ (∀ st fs ic',
       DetermineDownloadTimestamps SanitiseUri st fs ic = Ok ic' →
       (∀ f, isfile fs (skel st f) = false) →
       lookup_files ic' c a = Some ∅).
Proof.
  intros Hreach Hc Ha.
  assert (declared ic c a) as Hd.
  { induction Hreach as [|ic c0 a0 file _ IH|st fs ic ic' _ IH Hop|st fs ic ic' _ IH Hop].
    - by apply declared_init.
    - by apply declared_Add.
    - by apply (DetermineCurrentTimestamps_declared _ _ _ _ _ _ Hop).
    - by apply (DetermineDownloadTimestamps_declared _ _ _ _ _ _ Hop). }
  split; [done|].
  intros st fs ic' Hop Hnone.
  apply (DetermineDownloadTimestamps_declared _ _ _ _ c a Hop) in Hd as [files' Hfiles'].
  rewrite Hfiles'. f_equal. apply map_eq. intros f. rewrite lookup_empty.
  pose proof (DetermineDownloadTimestamps_lookup _ _ _ _ c a f Hop) as Hl.
  rewrite Hnone in Hl. unfold lookup_file in Hl. by rewrite Hfiles' in Hl.
Qed.


(** ** The scanner of checksum blocks *)

Lemma foldlM_app {A B} (step : A → B → result A) (acc : A) (l1 l2 : list B) :
  foldlM step acc (l1 ++ l2) = (acc' ← foldlM step acc l1; foldlM step acc' l2).
Proof.
  revert acc. induction l1 as [|x l1 IH]; intros acc; simpl; [done|].
  destruct (step acc x); simpl; [apply IH|done].
Qed.


Lemma dep11_matches_prefix self component filename indexUri (found : list string) :
  found `prefix_of`
    foldl (λ found arch,
             if re_match (dep11_pattern component arch) filename
             then found ++ [indexUri +:+ filename] else found)
          found (_architectures (Time := Time) self).
Proof.
  apply (foldl_invariant (λ l, found `prefix_of` l)); [done|].
  intros l arch Hl _. destruct (re_match _ _); [|done].
  by apply prefix_app_r.
Qed.

Lemma ProcessLine_step_returns st self indexType indexUri baseUri component s line :
  label_bound s →
  ∃ s', ProcessLine_step re_match st self indexType indexUri baseUri component s line = Ok s'
        ∧ label_bound s'
        ∧ indexes s `prefix_of` indexes s'.
Proof.
  intros Hbound. unfold ProcessLine_step.
  destruct (checksums s) eqn:Hin.
  - destruct (Hbound Hin) as [label Hlabel].
    assert (is_Some (label_after (checksumType s) line)) as [label' Hlabel'].
    { unfold label_after. rewrite Hlabel. destruct (has_label line); eauto. }
    rewrite Hlabel'.
    destruct (record_pattern line); [|eexists; split; [done|]; split; [done|done]].
    destruct (fields " " line) as [|part0 [|part1 [|part2 [|]]]];
      try (eexists; split; [done|]; split; [by intros _; eauto|done]).
    destruct indexType.
    + eexists. split; [done|]. split; [by intros _; eauto|]. by apply prefix_app_r.
    + destruct (re_match _ _).
      * destruct (ByHash st); simpl; eexists; (split; [done|]);
          (split; [by intros _; eauto|]); simpl;
          rewrite <- ?(assoc_L (++)); by apply prefix_app_r.
      * eexists. split; [done|]. split; [by intros _; eauto|done].
    + destruct (ByHash st); simpl; eexists; (split; [done|]);
        (split; [by intros _; eauto|]); simpl.
      * etrans; [apply dep11_matches_prefix|]. by apply prefix_app_r.
      * apply dep11_matches_prefix.
  - eexists. split; [done|]. split; [|done].
    unfold label_bound, label_after. simpl. intros ->. eauto.
Qed.

Lemma scan_returns st self indexType indexUri baseUri component lines s :
  label_bound s →
  ∃ s', scan re_match st self indexType indexUri baseUri component s lines = Ok s'
        ∧ label_bound s'
        ∧ indexes s `prefix_of` indexes s'.
Proof.
  unfold scan. revert s. induction lines as [|line lines IH]; intros s Hs; simpl.
  - eexists. split; [done|]. split; done.
  - destruct (ProcessLine_step_returns st self indexType indexUri baseUri component s line Hs)
      as (s1 & -> & Hs1 & Hpre1). simpl.
    destruct (IH s1 Hs1) as (s2 & -> & Hs2 & Hpre2).
    eexists. split; [done|]. split; [done|]. by etrans.
Qed.

(** In a block, a line that is not a record ends the block, whether or
    not it names a checksum. *)
Lemma ProcessLine_step_leaves_block st self indexType indexUri baseUri component s line :
  checksums s = true →
  record_pattern line = false →
  ProcessLine_step re_match st self indexType indexUri baseUri component s line
  = Ok (ScanState false (label_after (checksumType s) line) (indexes s)).
Proof. intros Hin Hrec. unfold ProcessLine_step. by rewrite Hin, Hrec. Qed.

(** Outside a block, a line that names no checksum is passed over. *)
Lemma ProcessLine_step_outside st self indexType indexUri baseUri component s line :
  checksums s = false →
  has_label line = false →
  ProcessLine_step re_match st self indexType indexUri baseUri component s line
  = Ok (ScanState false (checksumType s) (indexes s)).
Proof.
  intros Hout Hlabel. unfold ProcessLine_step, label_after. by rewrite Hout, Hlabel.
Qed.

Lemma ProcessLine_step_dep11_by_hash st self indexUri baseUri component
    label found line part0 part1 part2 :
  ByHash st = true →
  record_pattern line = true →
  fields " " line = [part0; part1; part2] →
  ∃ label' found',
    label_after (Some label) line = Some label'
    ∧ ProcessLine_step re_match st self Dep11 indexUri baseUri component
        (ScanState true (Some label) found) line
      = Ok (ScanState true (Some label')
              (found' ++ [indexUri +:+ component +:+ "/dep11/by-hash/"
                          +:+ label' +:+ "/" +:+ strip part0])).
Proof.
  intros Hby Hrec Hparts.
  assert (is_Some (label_after (Some label) line)) as [label' Hlabel'].
  { unfold label_after. destruct (has_label line); eauto. }
  exists label'. eexists. split; [done|].
  unfold ProcessLine_step. simpl. rewrite Hrec, Hparts, Hby, Hlabel'. simpl. done.
Qed.

Lemma ProcessLine_step_release_unmatched st self indexUri baseUri component
    label found line part0 part1 part2 :
  record_pattern line = true →
  fields " " line = [part0; part1; part2] →
  re_match (translation_pattern component) (rstrip part2) = false →
  ProcessLine_step re_match st self Release indexUri baseUri component
    (ScanState true (Some label) found) line
  = Ok (ScanState true (label_after (Some label) line) found).
Proof.
  intros Hrec Hparts Hno. unfold ProcessLine_step. simpl.
  by rewrite Hrec, Hparts, Hno.
Qed.

Lemma concat_loop_returns (body : string → result (list string)) (l : list string) :
  (∀ c, c ∈ l → ∃ found, body c = Ok found) →
  ∀ acc, ∃ r,
    foldlM (λ acc c, found ← body c; Ok (acc ++ found)) acc l = Ok r
    ∧ (∀ x, x ∈ acc → x ∈ r)
    ∧ (∀ c found x, c ∈ l → body c = Ok found → x ∈ found → x ∈ r).
Proof.
  induction l as [|c l IH]; intros Hall acc; simpl.
  - exists acc. split; [done|]. split; [done|]. intros ??? Hc. by inv Hc.
  - destruct (Hall c) as [found Hfound]; [by left|]. rewrite Hfound. simpl.
    destruct (IH (λ c' Hc', Hall c' (list_elem_of_further _ _ _ Hc')) (acc ++ found))
      as (r & -> & Hacc & Hl).
    exists r. split; [done|]. split.
    + intros x Hx. apply Hacc. apply elem_of_app. by left.
    + intros c' found' x Hc' Hbody Hx. apply elem_of_cons in Hc' as [->|Hc'].
      * rewrite Hfound in Hbody. injection Hbody as <-.
        apply Hacc. apply elem_of_app. by right.
      * by apply (Hl c' found').
Qed.

(** C9: with by-hash enabled, [GetDep11Files] returns, for every line of
    three parts in a checksum block of the [Release] file, the by-hash
    URL of its checksum, whatever the name of the file is: the filter on
    the name only guards the URL of the file itself.  In the branch for
    [Release] (translations) a name that the filter rejects adds nothing. *)
Theorem GetDep11Files_by_hash_unfiltered st fs self component
    pre line post label found part0 part1 part2 :
  _sourceType self = Bin →
  ByHash st = true →
  component ∈ _components self →
  open_lines fs (SkelPath st +:+ "/" +:+ SanitiseUri (dists_url self +:+ "Release"))
  = Ok (pre ++ line :: post) →
  scan re_match st self Dep11 (dists_url self) "" component scan_start pre
  = Ok (ScanState true (Some label) found) →
  record_pattern line = true →
  fields " " line = [part0; part1; part2] →
  (∃ label' urls,
     label_after (Some label) line = Some label'
     ∧ GetDep11Files SanitiseUri re_match st fs self = Ok urls
     ∧ (dists_url self +:+ component +:+ "/dep11/by-hash/" +:+ label' +:+ "/" +:+ strip part0)
       ∈ urls)
  ∧ (re_match (translation_pattern component) (rstrip part2) = false →
     ProcessLine_step re_match st self Release (dists_url self) "" component
       (ScanState true (Some label) found) line
     = Ok (ScanState true (label_after (Some label) line) found)).
Proof.
  intros Hbin Hby Hc Hopen Hpre Hrec Hparts. split.
  - destruct (ProcessLine_step_dep11_by_hash st self (dists_url self) "" component
                label found line part0 part1 part2 Hby Hrec Hparts)
      as (label' & found' & Hlabel' & Hstep).
    exists label'.
    assert (∀ c, c ∈ _components self →
              ∃ urls, ProcessLine re_match st fs self
                        (SkelPath st +:+ "/" +:+ SanitiseUri (dists_url self +:+ "Release"))
                        Dep11 (dists_url self) "" c = Ok urls) as Hall.
    { intros c _. unfold ProcessLine. rewrite Hopen. simpl.
      destruct (scan_returns st self Dep11 (dists_url self) "" c (pre ++ line :: post) scan_start)
        as (s' & -> & _); [by intros [=]|]. simpl. eauto. }
    destruct (concat_loop_returns _ _ Hall []) as (urls & Hurls & _ & Hin).
    exists urls. split; [done|]. split.
    { unfold GetDep11Files. by rewrite Hbin. }
    destruct (Hall component Hc) as [here Hhere].
    apply (Hin component here); [done|done|].
    unfold ProcessLine in Hhere. rewrite Hopen in Hhere. simpl in Hhere.
    unfold scan in Hhere, Hpre. rewrite foldlM_app, Hpre in Hhere. simpl in Hhere.
    rewrite Hstep in Hhere. simpl in Hhere.
    destruct (scan_returns st self Dep11 (dists_url self) "" component post
                (ScanState true (Some label')
                   (found' ++ [dists_url self +:+ component +:+ "/dep11/by-hash/"
                               +:+ label' +:+ "/" +:+ strip part0])))
      as (s' & Hs' & _ & Hprefix); [by intros _; eauto|].
    unfold scan in Hs'. rewrite Hs' in Hhere. simpl in Hhere. injection Hhere as <-.
    destruct Hprefix as [rest ->]. simpl.
    apply elem_of_app. left. apply elem_of_app. right. by left.
  - by apply (ProcessLine_step_release_unmatched _ _ _ _ _ _ _ _ part0 part1 part2).
Qed.

(** ** The constructor of [Source] *)

Lemma item_raises {A} (l : list A) (i : nat) e : item l i = Raise e → e = "IndexError".
Proof. unfold item. destruct (l !! i); congruence. Qed.

Lemma split_not_nil sep s : split sep s ≠ [].
Proof.
  destruct s as [|c s]; simpl; [done|].
  destruct (Ascii.eqb c sep); [done|]. by destruct (split sep s).
Qed.

(** C6, as amended: a line without elements, or without an element at the
    position of the URI, makes the constructor raise [IndexError], the
    error of the list access; the code has no error of its own for a
    malformed line. *)
Theorem Source_init_without_uri line defaultArch :
  elements_of line = [] ∨ elements_of line !! elementIndex_of line = None →
  Source_init (Time := Time) line defaultArch = Raise "IndexError".
Proof.
  intros H. unfold Source_init, elementIndex_of in *.
  destruct (elements_of line) as [|first rest] eqn:He; [done|].
  destruct H as [H|H]; [done|].
  unfold item at 1. simpl.
  destruct (contains "[" (strip_comment line) && contains "]" (strip_comment line)).
  - destruct (item (split "[" (strip_comment line)) 1) as [bracketed|e] eqn:H1; simpl.
    + destruct (item (split "]" bracketed) 0) as [archList|e] eqn:H2; simpl.
      * unfold item. by rewrite H.
      * by rewrite (item_raises _ _ _ H2).
    + by rewrite (item_raises _ _ _ H1).
  - simpl. unfold item. by rewrite H.
Qed.

Lemma Source_init_Ok line defaultArch self :
  Source_init (Time := Time) line defaultArch = Ok self →
  _indexCollection self = IndexCollection_init (_components self) (_architectures self)
  ∧ _architectures self ≠ []
  ∧ (_flatRepository self = true → _components self = ["Flat"] ∧ _distribution self = "").
Proof.
  unfold Source_init. intros H.
  destruct (item (elements_of line) 0) as [first|] eqn:H0; simpl in H; [|done].
  set (bracket := contains "[" (strip_comment line) && contains "]" (strip_comment line)) in *.
  assert (∃ architectures,
            (if bracket
             then bracketed ← item (split "[" (strip_comment line)) 1;
                  archList ← item (split "]" bracketed) 0;
                  Ok (split "," (replace "arch=" "" archList))
             else Ok [defaultArch]) = Ok architectures
            ∧ architectures ≠ []) as (architectures & Harch & Hne).
  { destruct bracket; [|by eexists].
    destruct (item (split "[" (strip_comment line)) 1); simpl in *; [|done].
    destruct (item (split "]" a) 0); simpl in *; [|done].
    eexists. split; [done|]. apply split_not_nil. }
  rewrite Harch in H. simpl in H.
  destruct (item (elements_of line) (if bracket then 2%nat else 1%nat)) as [uri|];
    simpl in H; [|done].
  destruct (bool_decide ((if bracket then 2 else 1) + 1 < length (elements_of line))%nat).
  - destruct (item (elements_of line) ((if bracket then 2%nat else 1%nat) + 1));
      simpl in H; [|done].
    injection H as <-. simpl. done.
  - simpl in H. injection H as <-. simpl. done.
Qed.

(** ** The list that [GetIndexes] returns *)



Lemma foldlM_preserves {A B} (P : A → Prop) (step : A → B → result A) (l : list B) :
  (∀ acc x acc', P acc → step acc x = Ok acc' → P acc') →
  ∀ acc r, P acc → foldlM step acc l = Ok r → P r.
Proof.
  intros Hstep. induction l as [|x l IH]; intros acc r Hacc H; simpl in H.
  - congruence.
  - destruct (step acc x) as [acc'|] eqn:Hx; simpl in H; [|done].
    eapply IH; [|done]. by eapply Hstep.
Qed.






(** ** The capture of the timestamps returns *)

Section sanitiser.

Hypothesis SanitiseUri_idempotent : ∀ u, SanitiseUri (SanitiseUri u) = SanitiseUri u.



End sanitiser.










End properties.

(** * The code on concrete inputs *)

(** ** The package index parser *)

Example GetPackages_blank_terminated :
  GetPackages ["Filename: a/b.deb"; "Size: 100"; ""]
  = Ok [ {[ "Filename" := "a/b.deb"; "Size" := "100" ]} ].
Proof. vm_compute. reflexivity. Qed.

Example GetPackages_continuation :
  GetPackages ["Files:"; " 0a1b 10 a.dsc"; " 2c3d 20 a.tar.xz"; ""]
  = Ok [ {[ "Files" := "" +:+ nl +:+ "0a1b 10 a.dsc" +:+ nl +:+ "2c3d 20 a.tar.xz" ]} ].
Proof. vm_compute. reflexivity. Qed.

(** A record is appended at a blank line and nowhere else: the parser
    returns as many records as the file has blank lines. *)
Lemma GetPackages_step_packages s line s' :
  GetPackages_step s line = Ok s' →
  length (packages s') = (length (packages s) + if nonempty line then 0 else 1)%nat.
Proof.
  unfold GetPackages_step. destruct (nonempty line); simpl.
  - destruct (negb (field_match line) && truthy (key s)).
    + destruct (key s) as [k|]; [|intros [= <-]; lia].
      destruct (package s !! k); [|done]. intros [= <-]. simpl. lia.
    + destruct (bool_decide _); [|intros [= <-]; simpl; lia].
      destruct (split ":" line !! 1%nat); [|done]. intros [= <-]. simpl. lia.
  - intros [= <-]. simpl. rewrite length_app. simpl. lia.
Qed.

Lemma GetPackages_length lines records :
  GetPackages lines = Ok records →
  length records = length (List.filter (λ line, negb (nonempty line)) lines).
Proof.
  unfold GetPackages.
  assert (∀ s s', foldlM GetPackages_step s lines = Ok s' →
            length (packages s')
            = (length (packages s)
               + length (List.filter (λ line, negb (nonempty line)) lines))%nat) as Hgen.
  { induction lines as [|line lines IH]; intros s s' H; simpl in H.
    - injection H as <-. simpl. lia.
    - destruct (GetPackages_step s line) as [s1|] eqn:Hstep; simpl in H; [|done].
      rewrite (IH _ _ H), (GetPackages_step_packages _ _ _ Hstep). simpl.
      destruct (nonempty line); simpl; lia. }
  destruct (foldlM GetPackages_step _ lines) as [s'|] eqn:Hfold; simpl; [|done].
  intros [= <-]. by rewrite (Hgen _ _ Hfold).
Qed.

(** The value that the parser stores for a field of the whitelist: the
    piece between the first colon and the second. *)
Lemma GetPackages_step_field s line :
  nonempty line = true →
  field_match line = true →
  default "" (head (split ":" line)) ∈ keywords →
  GetPackages_step s line
  = match split ":" line !! 1%nat with
    | Some piece =>
        Ok (PkgState (packages s)
              (<[default "" (head (split ":" line)) := strip piece]> (package s))
              (Some (default "" (head (split ":" line)))))
    | None => Raise "IndexError"
    end.
Proof.
  intros Hline Hmatch Hkey. unfold GetPackages_step.
  rewrite Hline, Hmatch. simpl. by rewrite bool_decide_eq_true_2.
Qed.

(** C2 (the code on the input of the claim): the file holds two stanzas
    and ends without a blank line; [Read] yields five lines and
    [GetPackages] returns one record, the first stanza.  The second
    stanza is collected and never appended. *)
Theorem GetPackages_unterminated_stanza :
  Read ("Filename: a/b.deb" +:+ nl +:+ "Size: 100" +:+ nl +:+ nl
        +:+ "Filename: c/d.deb" +:+ nl +:+ "Size: 200" +:+ nl)
  = Ok (points <$> ["Filename: a/b.deb"; "Size: 100"; ""; "Filename: c/d.deb"; "Size: 200"])
  ∧ GetPackages ["Filename: a/b.deb"; "Size: 100"; ""; "Filename: c/d.deb"; "Size: 200"]
    = Ok [ {[ "Filename" := "a/b.deb"; "Size" := "100" ]} ]
  ∧ package <$> foldlM GetPackages_step (PkgState [] ∅ None)
                  ["Filename: a/b.deb"; "Size: 100"; ""; "Filename: c/d.deb"; "Size: 200"]
    = Ok {[ "Filename" := "c/d.deb"; "Size" := "200" ]}.
Proof. repeat split; vm_compute; reflexivity. Qed.

(** C5 (the code on a value with a colon): the line matches the pattern
    of a field and names a field of the whitelist; the text after its
    first colon, trimmed, is [pool/main/a/a_1:2.0_all.deb]; the parser
    stores [pool/main/a/a_1], the text up to the second colon. *)
Theorem GetPackages_value_with_colon :
  field_match "Filename: pool/main/a/a_1:2.0_all.deb" = true
  ∧ strip (slice_from (S (index ":" "Filename: pool/main/a/a_1:2.0_all.deb"))
             "Filename: pool/main/a/a_1:2.0_all.deb")
    = "pool/main/a/a_1:2.0_all.deb"
  ∧ GetPackages ["Filename: pool/main/a/a_1:2.0_all.deb"; ""]
    = Ok [ {[ "Filename" := "pool/main/a/a_1" ]} ].
Proof. repeat split; vm_compute; reflexivity. Qed.

(** ** The scanner of checksum blocks *)

(** C4 (the code on two blocks in a row): the line [SHA1:] ends the
    block of [MD5Sum:] and does not open its own; the record below it is
    passed over, and the scan ends outside a block with the one URL of
    the first block. *)
Theorem scan_consecutive_blocks :
  scan no_match settings_plain debian_source Index
    "http://example.com/debian/dists/stable/main/i18n/Index"
    "http://example.com/debian/dists/stable/main/i18n/" "" scan_start
    ["MD5Sum:" +:+ nl;
     " 0a1b 10 Translation-en.bz2" +:+ nl;
     "SHA1:" +:+ nl;
     " 2c3d 10 Translation-fr.bz2" +:+ nl]
  = Ok (ScanState false (Some "SHA1")
          ["http://example.com/debian/dists/stable/main/i18n/Translation-en.bz2"])
  ∧ scan no_match settings_plain debian_source Index
      "http://example.com/debian/dists/stable/main/i18n/Index"
      "http://example.com/debian/dists/stable/main/i18n/" "" scan_start
      ["MD5Sum:" +:+ nl;
       " 0a1b 10 Translation-en.bz2" +:+ nl;
       "SHA1:" +:+ nl]
    = Ok (ScanState false (Some "SHA1")
            ["http://example.com/debian/dists/stable/main/i18n/Translation-en.bz2"]).
Proof. split; vm_compute; reflexivity. Qed.

(** ** The indexes of a flat repository *)

(** C1 (the code on a flat repository): the line has no distribution and
    no component; the constructor marks the [Source] as flat with the one
    component [Flat], and [GetIndexes] returns the URLs of the nested
    layout, below [dists//] and [dists//Flat/], not those of the branch
    for flat repositories. *)
Theorem GetIndexes_flat_repository :
  ∃ self : @Source Z,
    Source_init "deb http://example.com/repo" "amd64" = Ok self
    ∧ _flatRepository self = true
    ∧ _components self = ["Flat"]
    ∧ fst <$> GetIndexes 0 keep_uri settings_plain empty_disk self
      = Ok ["http://example.com/repo/dists//InRelease";
            "http://example.com/repo/dists//Release";
            "http://example.com/repo/dists//Release.gpg";
            "http://example.com/repo/dists//Flat/binary-amd64/Release";
            "http://example.com/repo/dists//Flat/binary-amd64/Packages.gz";
            "http://example.com/repo/dists//Flat/cnf/Commands-amd64.gz";
            "http://example.com/repo/dists//Flat/i18n/cnf/Commands-amd64.gz";
            "http://example.com/repo/dists//Flat/binary-amd64/Packages.bz2";
            "http://example.com/repo/dists//Flat/cnf/Commands-amd64.bz2";
            "http://example.com/repo/dists//Flat/i18n/cnf/Commands-amd64.bz2";
            "http://example.com/repo/dists//Flat/binary-amd64/Packages.xz";
            "http://example.com/repo/dists//Flat/cnf/Commands-amd64.xz";
            "http://example.com/repo/dists//Flat/i18n/cnf/Commands-amd64.xz";
            "http://example.com/repo/dists//Flat/i18n/Index"].
Proof.
  eexists. split; [vm_compute; reflexivity|]. repeat split; vm_compute; reflexivity.
Qed.

(** Every flat [Source] of the constructor takes the branch of the nested
    layout: its list of components is not empty. *)
Lemma flat_source_release_indexes {Time : Type} (zero : Time)
    (SanitiseUri : string → string) line defaultArch (self : @Source Time) :
  Source_init line defaultArch = Ok self →
  _flatRepository self = true →
  dists_url self = _uri self +:+ "/dists//"
  ∧ release_indexes zero SanitiseUri self
    = Ok ([dists_url self +:+ "InRelease"; dists_url self +:+ "Release";
           dists_url self +:+ "Release.gpg"], _indexCollection self).
Proof.
  intros Hinit Hflat.
  destruct (Source_init_Ok _ _ _ Hinit) as (_ & _ & Hc).
  destruct (Hc Hflat) as [Hcomponents Hdist].
  unfold release_indexes, dists_url. rewrite Hcomponents, Hdist. done.
Qed.

(** * Witnesses and counterexamples *)



(** C6, the claim as it is written fails: a line that holds a comment and
    nothing else has no elements, and the constructor raises
    [IndexError]; no [MalformedLineError] exists. *)
Lemma Source_init_comment_line :
  elements_of "  # nothing but a comment" = []
  ∧ Source_init (Time := Z) "  # nothing but a comment" "amd64" = Raise "IndexError"
  ∧ Source_init (Time := Z) "  # nothing but a comment" "amd64"
    ≠ Raise "MalformedLineError".
Proof. repeat split; [vm_compute; reflexivity..|vm_compute; discriminate]. Qed.

Lemma Source_init_without_uri_witness :
  (elements_of "deb [arch=amd64]" = []
   ∨ elements_of "deb [arch=amd64]" !! elementIndex_of "deb [arch=amd64]" = None)
  ∧ Source_init (Time := Z) "deb [arch=amd64]" "amd64" = Raise "IndexError".
Proof.
  split; [right; vm_compute; reflexivity|].
  apply Source_init_without_uri. right. vm_compute. reflexivity.
Defined.



Lemma declared_pairs_persist_witness :
  reachable 0 keep_uri ["main"] ["amd64"] lonely_after
  ∧ "main" ∈ ["main"]
  ∧ "amd64" ∈ ["amd64"]
  ∧ declared lonely_after "main" "amd64"
  ∧ lookup_files lonely_after "main" "amd64" = Some ∅.
Proof.
  assert (reachable 0 keep_uri ["main"] ["amd64"] lonely_after) as Hreach.
  { apply (reach_download 0 keep_uri _ _ settings_plain empty_disk lonely_before).
    - apply (reach_current 0 keep_uri _ _ settings_plain empty_disk lonely_registered).
      + apply reach_Add, reach_init.
      + vm_compute. reflexivity.
    - vm_compute. reflexivity. }
  split; [exact Hreach|]. split; [apply list_elem_of_here|].
  split; [apply list_elem_of_here|].
  split; [|vm_compute; reflexivity].
  apply (declared_pairs_persist 0 keep_uri ["main"] ["amd64"] lonely_after "main" "amd64"
           Hreach (list_elem_of_here _ _) (list_elem_of_here _ _)).
Defined.

Lemma GetDep11Files_by_hash_unfiltered_witness :
  _sourceType debian_source = Bin
  ∧ ByHash settings_by_hash = true
  ∧ "main" ∈ _components debian_source
  ∧ open_lines release_disk
      (SkelPath settings_by_hash +:+ "/" +:+ keep_uri (dists_url debian_source +:+ "Release"))
    = Ok (["Origin: Debian" +:+ nl; "SHA256:" +:+ nl]
          ++ (" 0a1b2c 1024 main/binary-amd64/Packages.gz" +:+ nl) :: [])
  ∧ scan no_match settings_by_hash debian_source Dep11 (dists_url debian_source) "" "main"
      scan_start ["Origin: Debian" +:+ nl; "SHA256:" +:+ nl]
    = Ok (ScanState true (Some "SHA256") [])
  ∧ record_pattern (" 0a1b2c 1024 main/binary-amd64/Packages.gz" +:+ nl) = true
  ∧ fields " " (" 0a1b2c 1024 main/binary-amd64/Packages.gz" +:+ nl)
    = ["0a1b2c"; "1024"; "main/binary-amd64/Packages.gz" +:+ nl]
  ∧ ∃ label' urls,
      label_after (Some "SHA256") (" 0a1b2c 1024 main/binary-amd64/Packages.gz" +:+ nl)
      = Some label'
      ∧ GetDep11Files keep_uri no_match settings_by_hash release_disk debian_source = Ok urls
      ∧ (dists_url debian_source +:+ "main" +:+ "/dep11/by-hash/" +:+ label' +:+ "/"
         +:+ strip "0a1b2c") ∈ urls.
Proof.
  assert ("main" ∈ _components debian_source) as Hc by (vm_compute; apply list_elem_of_here).
  split; [vm_compute; reflexivity|]. split; [reflexivity|]. split; [exact Hc|].
  split; [vm_compute; reflexivity|]. split; [vm_compute; reflexivity|].
  split; [vm_compute; reflexivity|]. split; [vm_compute; reflexivity|].
  refine (proj1 (GetDep11Files_by_hash_unfiltered keep_uri no_match settings_by_hash
                   release_disk debian_source "main"
                   ["Origin: Debian" +:+ nl; "SHA256:" +:+ nl]
                   (" 0a1b2c 1024 main/binary-amd64/Packages.gz" +:+ nl) []
                   "SHA256" [] "0a1b2c" "1024" ("main/binary-amd64/Packages.gz" +:+ nl)
                   _ eq_refl Hc _ _ _ _));
    vm_compute; reflexivity.
Defined.

Lemma UnmodifiedFiles_ignores_force_witness :
  Force settings_force = true
  ∧ lookup_file debian_after "main" "amd64" packages_gz = Some (MkTimestamp 5 5)
  ∧ Current (MkTimestamp 5 5) = Download (MkTimestamp (5 : Z) 5)
  ∧ (splitext packages_gz).1 ∈ UnmodifiedFiles debian_after
  ∧ (splitext packages_gz).1 ∈ Files settings_force debian_after.
Proof.
  assert (lookup_file debian_after "main" "amd64" packages_gz = Some (MkTimestamp 5 5))
    as Hl by (vm_compute; reflexivity).
  split; [reflexivity|]. split; [exact Hl|]. split; [reflexivity|].
  destruct (UnmodifiedFiles_ignores_force settings_force debian_after "main" "amd64"
              packages_gz (MkTimestamp 5 5) eq_refl Hl eq_refl) as (Hu & Hf & _).
  split; [exact Hu|exact Hf].
Defined.

(** * Further properties of the code *)

(** ** [Index.GetPackages] *)

Lemma word_is_not_colon c :
  isword c || Ascii.eqb c "-" = true → Ascii.eqb c ":" = false.
Proof.
  intros H. destruct (Ascii.eqb_spec c ":") as [->|]; [|done].
  vm_compute in H. discriminate.
Qed.

Lemma field_match_go_colon seen s :
  field_match_go seen s = true → is_Some (split ":" s !! 1%nat).
Proof.
  revert seen. induction s as [|c s IH]; intros seen H; simpl in *; [done|].
  destruct (isword c || Ascii.eqb c "-") eqn:Hc.
  - rewrite (word_is_not_colon c Hc). specialize (IH true H).
    destruct (split ":" s) as [|w ws]; [by destruct IH|]. done.
  - apply andb_true_iff in H as [_ ->].
    pose proof (split_not_nil ":" s) as Hne.
    destruct (split ":" s); [done|]. by eexists.
Qed.

Lemma keyword_nonempty k : k ∈ keywords → nonempty k = true.
Proof.
  unfold keywords. intros H.
  repeat (apply elem_of_cons in H as [->|H]; [done|]). by inv H.
Qed.

Lemma GetPackages_state lines records :
  GetPackages lines = Ok records →
  ∃ s, foldlM GetPackages_step (PkgState [] ∅ None) lines = Ok s ∧ packages s = records.
Proof.
  unfold GetPackages.
  destruct (foldlM GetPackages_step _ lines) as [s|]; simpl; [|done].
  intros [= <-]. by exists s.
Qed.

Lemma GetPackages_step_whitelisted s line s' :
  whitelisted s → GetPackages_step s line = Ok s' → whitelisted s'.
Proof.
  intros Hs. pose proof Hs as (Hpackage & Hpackages & Hkey). unfold GetPackages_step.
  destruct (nonempty line); simpl.
  - destruct (negb (field_match line) && truthy (key s)).
    + destruct (key s) as [k|] eqn:Hk; [|by intros [= <-]].
      destruct (package s !! k) as [v|] eqn:Hv; [|done]. intros [= <-].
      split; [|split]; simpl; [|done|done].
      intros k' Hk'. destruct (decide (k = k')) as [<-|Hne]; [by apply Hkey|].
      rewrite lookup_insert_ne in Hk' by done. by apply Hpackage.
    + case_bool_decide as Hin.
      * destruct (split ":" line !! 1%nat); [|done]. intros [= <-].
        split; [|split]; simpl; [|done|by intros k [= <-]].
        intros k'. set (k := default "" (head (split ":" line))) in *.
        destruct (decide (k = k')) as [<-|Hne]; [done|].
        rewrite lookup_insert_ne by done. apply Hpackage.
      * intros [= <-]. split; [|split]; simpl; done.
  - intros [= <-]. split; [|split]; simpl; [|..|done].
    + intros k. rewrite lookup_empty. by intros [? ?].
    + intros record k [Hin|Hin%list_elem_of_singleton]%elem_of_app Hk.
      * by apply (Hpackages record).
      * subst record. by apply Hpackage.
Qed.

(** X1: [GetPackages] returns as many records as its input has blank
    lines: a record is appended at each blank line and nowhere else. *)
Theorem GetPackages_one_record_per_blank_line lines records :
  GetPackages lines = Ok records →
  length records = length (List.filter (λ line, negb (nonempty line)) lines).
Proof. apply GetPackages_length. Qed.

(** X2: every field of every record that [GetPackages] returns is one of
    the seven names of the whitelist. *)
Theorem GetPackages_fields_whitelisted lines records record k :
  GetPackages lines = Ok records →
  record ∈ records →
  is_Some (record !! k) →
  k ∈ keywords.
Proof.
  intros (s & Hs & <-)%GetPackages_state Hin Hk.
  assert (whitelisted s) as (_ & Hpackages & _).
  { eapply (foldlM_preserves whitelisted); [apply GetPackages_step_whitelisted| |exact Hs].
    split; [|split]; simpl; [|by intros ?? H; inv H|done].
    intros k'. rewrite lookup_empty. by intros [? ?]. }
  by apply (Hpackages record).
Qed.

(** X3: the pending field survives a blank line while the record does
    not: a line that is not a field, right after the blank line that
    follows a field of the whitelist, makes [GetPackages] raise
    [KeyError]. *)
Theorem GetPackages_continuation_after_blank pre records field cont post :
  GetPackages pre = Ok records →
  nonempty field = true →
  field_match field = true →
  default "" (head (split ":" field)) ∈ keywords →
  nonempty cont = true →
  field_match cont = false →
  GetPackages (pre ++ [field; ""; cont] ++ post) = Raise "KeyError".
Proof.
  intros (s & Hs & _)%GetPackages_state Hfield Hmatch Hkey Hcont Hnomatch.
  unfold GetPackages. rewrite foldlM_app, Hs. simpl.
  rewrite (GetPackages_step_field s field Hfield Hmatch Hkey).
  destruct (field_match_go_colon _ _ Hmatch) as [piece ->]. simpl.
  unfold GetPackages_step at 1. simpl.
  unfold GetPackages_step at 1. rewrite Hcont, Hnomatch. simpl.
  rewrite (keyword_nonempty _ Hkey). simpl. by rewrite lookup_empty.
Qed.

(** X4: a first line that is the bare name of a field of the whitelist,
    without a colon, makes [GetPackages] raise [IndexError]. *)
Theorem GetPackages_bare_keyword line post :
  line ∈ keywords →
  GetPackages (line :: post) = Raise "IndexError".
Proof.
  unfold keywords. intros H.
  repeat (apply elem_of_cons in H as [->|H]; [done|]). by inv H.
Qed.

(** X5: when every line is blank or begins a field, [GetPackages]
    returns: only a line that continues a field and a bare field name
    can make it raise. *)
Theorem GetPackages_returns lines :
  (∀ line, line ∈ lines → nonempty line = false ∨ field_match line = true) →
  ∃ records, GetPackages lines = Ok records.
Proof.
  intros Hlines. unfold GetPackages.
  assert (∀ s, ∃ s', foldlM GetPackages_step s lines = Ok s') as Hfold.
  { induction lines as [|line lines IH]; intros s; simpl; [by eexists|].
    assert (∃ s1, GetPackages_step s line = Ok s1) as [s1 ->].
    { unfold GetPackages_step.
      destruct (Hlines line) as [->| Hmatch]; [by left|by eexists|].
      destruct (nonempty line); simpl; [|by eexists].
      rewrite Hmatch. simpl.
      destruct (field_match_go_colon _ _ Hmatch) as [piece ->].
      destruct (bool_decide _); by eexists. }
    simpl. apply IH. intros l Hl. apply Hlines. by right. }
  destruct (Hfold (PkgState [] ∅ None)) as [s' ->]. by eexists.
Qed.

(** ** [Source.__init__] *)

Lemma contains_char_split c s :
  contains (String c "") s = true → is_Some (split c s !! 1%nat).
Proof.
  induction s as [|x s IH]; simpl; [done|].
  destruct (ascii_dec c x) as [->|Hne].
  - intros _. rewrite Ascii.eqb_refl.
    pose proof (split_not_nil x s). destruct (split x s); [done|]. by eexists.
  - simpl. intros H. specialize (IH H).
    destruct (Ascii.eqb_spec x c) as [->|_]; [done|].
    destruct (split c s) as [|w ws]; [by destruct IH|]. done.
Qed.

Lemma fields_nonempty sep s x : x ∈ fields sep s → nonempty x = true.
Proof.
  unfold fields. rewrite list_elem_of_In, filter_In. by intros [_ ?].
Qed.

Lemma nonempty_not_empty x : nonempty x = true → x ≠ "".
Proof. by intros H ->. Qed.

(** What the constructor stores, read off its code. *)
Lemma Source_init_fields {Time : Type} line defaultArch (self : @Source Time) :
  Source_init line defaultArch = Ok self →
  elements_of line !! elementIndex_of line = Some (_uri self)
  ∧ _clean self = true
  ∧ (elementIndex_of line = 1%nat → _architectures self = [defaultArch])
  ∧ (if bool_decide (elementIndex_of line + 1 < length (elements_of line))%nat
     then _flatRepository self = false
          ∧ elements_of line !! (elementIndex_of line + 1)%nat = Some (_distribution self)
          ∧ _components self = drop (elementIndex_of line + 2) (elements_of line)
     else _flatRepository self = true
          ∧ _distribution self = ""
          ∧ _components self = ["Flat"]).
Proof.
  unfold Source_init, elementIndex_of. intros H.
  destruct (item (elements_of line) 0) as [first|] eqn:H0; simpl in H; [|done].
  set (bracket := contains "[" (strip_comment line) && contains "]" (strip_comment line)) in *.
  assert (∃ architectures,
            (if bracket
             then bracketed ← item (split "[" (strip_comment line)) 1;
                  archList ← item (split "]" bracketed) 0;
                  Ok (split "," (replace "arch=" "" archList))
             else Ok [defaultArch]) = Ok architectures
            ∧ (bracket = false → architectures = [defaultArch]))
    as (architectures & Harch & Hdefault).
  { destruct bracket; [|by eexists].
    destruct (item (split "[" (strip_comment line)) 1); simpl in *; [|done].
    destruct (item (split "]" a) 0); simpl in *; [|done].
    by eexists. }
  rewrite Harch in H. simpl in H.
  destruct (item (elements_of line) (if bracket then 2%nat else 1%nat)) as [uri|] eqn:Huri;
    simpl in H; [|done].
  assert (elements_of line !! (if bracket then 2%nat else 1%nat) = Some uri) as Hlookup.
  { unfold item in Huri. destruct (_ !! _); congruence. }
  destruct (bool_decide ((if bracket then 2 else 1) + 1 < length (elements_of line))%nat).
  - destruct (item (elements_of line) ((if bracket then 2%nat else 1%nat) + 1))
      as [distribution|] eqn:Hdist; simpl in H; [|done].
    injection H as <-. simpl. split; [done|]. split; [done|]. split.
    { intros Hb. apply Hdefault. by destruct bracket. }
    split; [done|]. split; [|done].
    unfold item in Hdist. destruct (_ !! _); congruence.
  - simpl in H. injection H as <-. simpl. split; [done|]. split; [done|]. split; [|done].
    intros Hb. apply Hdefault. by destruct bracket.
Qed.

Lemma strip_comment_clean line : contains "#" line = false → strip_comment line = line.
Proof. unfold strip_comment. by intros ->. Qed.

Lemma contains_char_cons c x s :
  contains (String c "") (String x s) = Ascii.eqb c x || contains (String c "") s.
Proof.
  change (contains (String c "") (String x s))
    with (String.prefix (String c "") (String x s) || contains (String c "") s).
  change (String.prefix (String c "") (String x s))
    with (if ascii_dec c x then String.prefix "" s else false).
  destruct (ascii_dec c x) as [->|Hne].
  - rewrite Ascii.eqb_refl. by destruct s.
  - by destruct (Ascii.eqb_spec c x).
Qed.

Lemma strip_comment_tail line comment :
  contains "#" line = false →
  strip_comment (line +:+ "#" +:+ comment) = line.
Proof.
  intros Hline. unfold strip_comment.
  assert (contains "#" (line +:+ "#" +:+ comment) = true
          ∧ slice_to (index "#" (line +:+ "#" +:+ comment)) (line +:+ "#" +:+ comment) = line)
    as [-> ->]; [|done].
  induction line as [|x line IH].
  - change ("" +:+ "#" +:+ comment) with (String "#" comment).
    by rewrite contains_char_cons.
  - rewrite contains_char_cons in Hline. apply orb_false_iff in Hline as [Hx Hl].
    destruct (IH Hl) as [Hc Hs].
    change (String x line +:+ "#" +:+ comment) with (String x (line +:+ "#" +:+ comment)).
    split.
    + by rewrite contains_char_cons, Hc, orb_true_r.
    + cbn [index]. rewrite Ascii.eqb_sym, Hx. cbn [slice_to]. by rewrite Hs.
Qed.

Lemma item_Raise {A} (l : list A) (i : nat) e : item l i = Raise e → l !! i = None.
Proof. unfold item. by destruct (l !! i). Qed.

(** X6: the constructor returns when the line has an element at the
    position of the URI, the second element or, with architectures in
    brackets, the third; the URI of the [Source] is that element. *)
Theorem Source_init_returns {Time : Type} line defaultArch uri :
  elements_of line !! elementIndex_of line = Some uri →
  ∃ self : @Source Time,
    Source_init line defaultArch = Ok self ∧ _uri self = uri ∧ _clean self = true.
Proof.
  intros Huri.
  assert (∃ self : @Source Time, Source_init line defaultArch = Ok self) as [self Hself].
  { unfold Source_init, elementIndex_of in *.
    destruct (item (elements_of line) 0) as [first|e] eqn:H0; simpl.
    2: { apply item_Raise in H0. apply lookup_lt_Some in Huri.
         apply lookup_ge_None in H0. destruct (_ && _); lia. }
    destruct (contains "[" (strip_comment line) && contains "]" (strip_comment line))
      eqn:Hbracket.
    - apply andb_true_iff in Hbracket as [Hopen _].
      destruct (item (split "[" (strip_comment line)) 1) as [bracketed|e] eqn:H1; simpl.
      2: { apply item_Raise in H1. destruct (contains_char_split _ _ Hopen). congruence. }
      destruct (item (split "]" bracketed) 0) as [archList|e] eqn:H2; simpl.
      2: { apply item_Raise in H2. pose proof (split_not_nil "]" bracketed).
           by destruct (split "]" bracketed). }
      destruct (item (elements_of line) 2) as [uri'|e] eqn:H3; simpl.
      2: { apply item_Raise in H3. congruence. }
      destruct (bool_decide (_ < length (elements_of line))%nat) eqn:Hlen;
        [|simpl; by eexists].
      apply bool_decide_eq_true in Hlen.
      destruct (item (elements_of line) _) as [distribution|e] eqn:H4 in |- *; simpl;
        [by eexists|].
      apply item_Raise, lookup_ge_None in H4. lia.
    - destruct (item (elements_of line) 1) as [uri'|e] eqn:H3; simpl.
      2: { apply item_Raise in H3. congruence. }
      destruct (bool_decide (_ < length (elements_of line))%nat) eqn:Hlen;
        [|simpl; by eexists].
      apply bool_decide_eq_true in Hlen.
      destruct (item (elements_of line) _) as [distribution|e] eqn:H4 in |- *; simpl;
        [by eexists|].
      apply item_Raise, lookup_ge_None in H4. lia. }
  exists self. split; [done|].
  destruct (Source_init_fields _ _ _ Hself) as (Hu & Hclean & _).
  split; [congruence|done].
Qed.

(** X7: what follows the first [#] of the line is a comment: the
    constructor gives the same result with and without it. *)
Theorem Source_init_ignores_comment {Time : Type} line comment defaultArch :
  contains "#" line = false →
  Source_init (Time := Time) (line +:+ "#" +:+ comment) defaultArch
  = Source_init line defaultArch.
Proof.
  intros Hline. unfold Source_init, elements_of.
  by rewrite (strip_comment_tail line comment Hline), (strip_comment_clean line Hline).
Qed.

(** X8: a line without a bracket pair gets the default architecture, and
    nothing else. *)
Theorem Source_init_default_architecture {Time : Type} line defaultArch (self : @Source Time) :
  Source_init line defaultArch = Ok self →
  contains "[" (strip_comment line) && contains "]" (strip_comment line) = false →
  _architectures self = [defaultArch].
Proof.
  intros Hself Hbracket.
  destruct (Source_init_fields _ _ _ Hself) as (_ & _ & Hdefault & _).
  apply Hdefault. unfold elementIndex_of. by rewrite Hbracket.
Qed.

(** X9: the distribution of a [Source] is empty exactly when the
    [Source] is flat, and then its one component is [Flat]; the URI and
    the components of a [Source] that is not flat are never empty
    strings. *)
Theorem Source_init_flat_or_nested {Time : Type} line defaultArch (self : @Source Time) :
  Source_init line defaultArch = Ok self →
  (_flatRepository self = true ↔ _distribution self = "")
  ∧ (_flatRepository self = true → _components self = ["Flat"])
  ∧ _uri self ≠ ""
  ∧ (_flatRepository self = false → ∀ component, component ∈ _components self → component ≠ "").
Proof.
  intros Hself.
  destruct (Source_init_fields _ _ _ Hself) as (Huri & _ & _ & Hshape).
  assert (_uri self ≠ "") as Hne.
  { apply nonempty_not_empty, (fields_nonempty " " (strip_comment line)).
    by apply list_elem_of_lookup_2 in Huri. }
  case_bool_decide as Hlen.
  - destruct Hshape as (Hflat & Hdist & Hcomponents).
    split; [|split; [|split]]; [|by rewrite Hflat|done|].
    + rewrite Hflat. split; [done|]. intros Hempty.
      apply list_elem_of_lookup_2, fields_nonempty in Hdist. by rewrite Hempty in Hdist.
    + intros _ component Hin. rewrite Hcomponents in Hin.
      apply nonempty_not_empty, (fields_nonempty " " (strip_comment line)).
      apply list_elem_of_lookup in Hin as [i Hi]. rewrite lookup_drop in Hi.
      by apply list_elem_of_lookup_2 in Hi.
  - destruct Hshape as (Hflat & Hdist & Hcomponents).
    split; [|split; [|split]]; [by rewrite Hflat, Hdist|done|done|].
    by rewrite Hflat.
Qed.

(** ** [IndexCollection] and the views of a [Source] *)

Section collection.

Context {Time : Type} `{!EqDecision Time}.
Variable zero : Time.
Variable SanitiseUri : string → string.

Implicit Types ic : gmap string (gmap string (gmap string (@Timestamp Time))).
Implicit Types ts : @Timestamp Time.
Implicit Types fs : @FileSystem Time.
Implicit Types st : Settings.
Implicit Types self : @Source Time.

Lemma for_each_file_components body ic ic' c :
  for_each_file body ic = Ok ic' → is_Some (ic' !! c) ↔ is_Some (ic !! c).
Proof.
  unfold for_each_file. intros H. pose proof (map_traverse_Ok _ _ _ c H) as Hc.
  destruct (ic !! c).
  - destruct Hc as (? & _ & ->). split; eauto.
  - rewrite Hc. done.
Qed.

Lemma DetermineDownloadTimestamps_components st fs ic ic' c :
  DetermineDownloadTimestamps SanitiseUri st fs ic = Ok ic' →
  is_Some (ic' !! c) ↔ is_Some (ic !! c).
Proof.
  unfold DetermineDownloadTimestamps. intros H.
  destruct (for_each_file _ ic) as [stamped|e] eqn:Hs; simpl in H; [|done].
  injection H as <-. unfold remove_marked. rewrite lookup_fmap, fmap_is_Some.
  by apply (for_each_file_components _ _ _ _ Hs).
Qed.

Lemma IndexCollection_ext ic1 ic2 :
  (∀ c, is_Some (ic1 !! c) ↔ is_Some (ic2 !! c)) →
  (∀ c a, declared ic1 c a ↔ declared ic2 c a) →
  (∀ c a f, lookup_file ic1 c a f = lookup_file ic2 c a f) →
  ic1 = ic2.
Proof.
  intros Hcomponents Hdeclared Hfiles. apply map_eq. intros c.
  specialize (Hcomponents c).
  destruct (ic1 !! c) as [archs1|] eqn:H1, (ic2 !! c) as [archs2|] eqn:H2;
    [|by destruct Hcomponents as [[? ?] _]; eauto
     |by destruct Hcomponents as [_ [? ?]]; eauto|done].
  f_equal. apply map_eq. intros a.
  specialize (Hdeclared c a). unfold declared, lookup_files in Hdeclared.
  rewrite H1, H2 in Hdeclared. simpl in Hdeclared.
  destruct (archs1 !! a) as [files1|] eqn:Ha1, (archs2 !! a) as [files2|] eqn:Ha2;
    [|by destruct Hdeclared as [[? ?] _]; eauto
     |by destruct Hdeclared as [_ [? ?]]; eauto|done].
  f_equal. apply map_eq. intros f.
  specialize (Hfiles c a f). unfold lookup_file, lookup_files in Hfiles.
  rewrite H1, H2 in Hfiles. simpl in Hfiles. by rewrite Ha1, Ha2 in Hfiles.
Qed.

(** X10: [Add] registers the file under its sanitised name with a fresh
    timestamp, replacing the one it had; it creates the entry of the pair
    when that is missing, and leaves every other file and pair as it
    was. *)
Theorem Add_then_lookup ic c a file :
  lookup_file (Add zero SanitiseUri ic c a file) c a (SanitiseUri file)
  = Some (Timestamp_init zero)
  ∧ declared (Add zero SanitiseUri ic c a file) c a
  ∧ (∀ c' a' f, (c', a', f) ≠ (c, a, SanitiseUri file) →
       lookup_file (Add zero SanitiseUri ic c a file) c' a' f = lookup_file ic c' a' f)
  ∧ (∀ c' a', declared ic c' a' → declared (Add zero SanitiseUri ic c a file) c' a').
Proof.
  split; [|split; [|split]].
  - rewrite lookup_file_Add. by rewrite !decide_True.
  - apply declared_set_files_here.
  - intros c' a' f Hne. rewrite lookup_file_Add.
    destruct (decide (c = c' ∧ a = a')) as [[<- <-]|]; [|done].
    destruct (decide (SanitiseUri file = f)) as [<-|]; [done|done].
  - intros c' a'. apply declared_Add.
Qed.



(** X13: the pass that follows the download, run a second time on the
    same disk, returns the collection that the first run returned. *)
Theorem DetermineDownloadTimestamps_twice st fs ic ic' :
  DetermineDownloadTimestamps SanitiseUri st fs ic = Ok ic' →
  DetermineDownloadTimestamps SanitiseUri st fs ic' = Ok ic'.
Proof.
  intros H.
  assert (∃ ic'', DetermineDownloadTimestamps SanitiseUri st fs ic' = Ok ic'') as [ic'' H2].
  { unfold DetermineDownloadTimestamps.
    destruct (for_each_file_total (stamp_download SanitiseUri st fs) ic') as [stamped ->];
      [|by eexists].
    intros c a f ts' Hl.
    rewrite (DetermineDownloadTimestamps_lookup _ _ _ _ _ c a f H) in Hl.
    unfold stamp_download.
    destruct (isfile fs (skel st f)); [|done].
    destruct (lookup_file ic c a f); simpl in Hl; [|done].
    destruct (getmtime fs (skel st (SanitiseUri f))); [|done]. by eexists. }
  rewrite H2. f_equal. apply IndexCollection_ext.
  - intros c. by apply (DetermineDownloadTimestamps_components _ _ _ _ _ H2).
  - intros c a. by apply (DetermineDownloadTimestamps_declared _ _ _ _ _ _ _ H2).
  - intros c a f.
    rewrite (DetermineDownloadTimestamps_lookup _ _ _ _ _ c a f H2).
    rewrite (DetermineDownloadTimestamps_lookup _ _ _ _ _ c a f H).
    destruct (isfile fs (skel st f)); [|done].
    destruct (lookup_file ic c a f); simpl; [|done].
    by destruct (getmtime fs (skel st (SanitiseUri f))).
Qed.

(** X14: the two views list, without repetition, the names without
    extension of the files of the collection and nothing else, and every
    file of the collection has its name in one of them at least. *)
Theorem views_cover_the_collection st ic :
  (∀ c a f ts, lookup_file ic c a f = Some ts →
     (splitext f).1 ∈ Files st ic ∨ (splitext f).1 ∈ UnmodifiedFiles ic)
  ∧ (∀ x, x ∈ Files st ic ∨ x ∈ UnmodifiedFiles ic →
       ∃ c a f ts, lookup_file ic c a f = Some ts ∧ (splitext f).1 = x)
  ∧ NoDup (Files st ic)
  ∧ NoDup (UnmodifiedFiles ic).
Proof.
  split; [|split; [|split]].
  - intros c a f ts Hl. destruct (Modified ts) eqn:Hm.
    + left. apply elem_of_Files. exists c, a, f, ts. auto.
    + right. apply elem_of_UnmodifiedFiles. by exists c, a, f, ts.
  - intros x [(c & a & f & ts & ? & _ & ?)%elem_of_Files
             |(c & a & f & ts & ? & _ & ?)%elem_of_UnmodifiedFiles];
      by exists c, a, f, ts.
  - apply NoDup_unique.
  - apply NoDup_unique.
Qed.

(** X15: a [Source] reports itself modified exactly when its collection
    holds a modified file, or holds any file while the force flag is set;
    a [Source] fresh from the constructor is not modified, whatever the
    flag. *)
Theorem Source_Modified_iff st self :
  (Source_Modified st self = true ↔
   ∃ c a f ts, lookup_file (_indexCollection self) c a f = Some ts
               ∧ (Modified ts = true ∨ Force st = true))
  ∧ (∀ line defaultArch,
       Source_init line defaultArch = Ok self → Source_Modified st self = false).
Proof.
  assert (Source_Modified st self = true ↔
          ∃ c a f ts, lookup_file (_indexCollection self) c a f = Some ts
                      ∧ (Modified ts = true ∨ Force st = true)) as Hiff.
  { unfold Source_Modified. rewrite bool_decide_eq_true. split.
    - intros Hlen. destruct (Files st (_indexCollection self)) as [|x l] eqn:Hfiles;
        [simpl in Hlen; lia|].
      assert (x ∈ Files st (_indexCollection self)) as Hx by (rewrite Hfiles; by left).
      apply elem_of_Files in Hx as (c & a & f & ts & ? & ? & _). by exists c, a, f, ts.
    - intros (c & a & f & ts & Hl & Hm).
      assert ((splitext f).1 ∈ Files st (_indexCollection self)) as Hx.
      { apply elem_of_Files. by exists c, a, f, ts. }
      destruct (Files st (_indexCollection self)); [by inv Hx|simpl; lia]. }
  split; [exact Hiff|].
  intros line defaultArch Hinit. apply not_true_is_false. rewrite Hiff.
  intros (c & a & f & ts & Hl & _).
  destruct (Source_init_Ok _ _ _ Hinit) as (Hic & _).
  rewrite Hic in Hl. by rewrite lookup_file_init in Hl.
Qed.

End collection.

(** ** [Source.GetIndexes] *)

Section walks.

Context {Time : Type} `{!EqDecision Time}.
Variable zero : Time.
Variable SanitiseUri : string → string.

Implicit Types ic : gmap string (gmap string (gmap string (@Timestamp Time))).
Implicit Types fs : @FileSystem Time.
Implicit Types st : Settings.
Implicit Types self : @Source Time.
Implicit Types w : list string * gmap string (gmap string (gmap string (@Timestamp Time))).

Lemma foldl_length_fst {A B C} (f : list A * B → C → list A * B) (k : nat) (l : list C) :
  (∀ v x, length (f v x).1 = (length v.1 + k)%nat) →
  ∀ v, length (foldl f v l).1 = (length v.1 + k * length l)%nat.
Proof.
  intros Hf. induction l as [|x l IH]; intros v; simpl; [lia|].
  rewrite IH, Hf. lia.
Qed.

Lemma foldlM_length_fst {A B C} (f : list A * B → C → result (list A * B))
    (k : nat) (l : list C) :
  (∀ v x v', f v x = Ok v' → length v'.1 = (length v.1 + k)%nat) →
  ∀ v v', foldlM f v l = Ok v' → length v'.1 = (length v.1 + k * length l)%nat.
Proof.
  intros Hf. induction l as [|x l IH]; intros v v' H; simpl in H.
  - injection H as <-. simpl. lia.
  - destruct (f v x) as [v1|] eqn:Hx; simpl in H; [|done].
    rewrite (IH _ _ H), (Hf _ _ _ Hx). simpl. lia.
Qed.

Lemma release_indexes_Ok self w :
  release_indexes zero SanitiseUri self = Ok w →
  _components self ≠ []
  ∧ w = ([dists_url self +:+ "InRelease"; dists_url self +:+ "Release";
          dists_url self +:+ "Release.gpg"], _indexCollection self).
Proof.
  unfold release_indexes.
  destruct (_components self) as [|c0 components] eqn:Hc; simpl.
  - unfold flat_body. by rewrite Hc.
  - by intros [= <-].
Qed.

(** The number of URLs that one component adds for a binary mirror. *)
Lemma architecture_body_length st baseUrl component w architecture :
  length (architecture_body zero SanitiseUri st baseUrl component w architecture).1
  = (length w.1 + ((if Contents st then 3 else 0) + 10))%nat.
Proof.
  unfold architecture_body, packages_body. simpl.
  destruct (Contents st); simpl; rewrite !length_app; simpl; lia.
Qed.

Lemma bind_length {A B} (g : A → list B) (k : nat) (l : list A) :
  (∀ x, length (g x) = k) → length (l ≫= g) = (k * length l)%nat.
Proof.
  intros Hg. induction l as [|x l IH]; csimpl; [lia|].
  rewrite length_app, IH, Hg. lia.
Qed.

Lemma contents_length (architectures : list string) (baseUrl : string) :
  length (architecture ← architectures;
          (λ compressionFormat,
             baseUrl +:+ "Contents-" +:+ architecture +:+ compressionFormat)
            <$> compressionFormats)
  = (3 * length architectures)%nat.
Proof. by apply bind_length. Qed.

(** X16: the number of URLs that [GetIndexes] returns.  A binary mirror
    gets the three release files, ten URLs for each pair of a component
    and an architecture and one for each component, and with the contents
    enabled three more for each architecture and for each pair; a source
    mirror gets the three release files and four URLs for each
    component. *)
Theorem GetIndexes_length st fs self urls self' :
  GetIndexes zero SanitiseUri st fs self = Ok (urls, self') →
  length urls
  = match _sourceType self with
    | Bin =>
        let contents := if Contents st then 3%nat else 0%nat in
        (3 + contents * length (_architectures self)
         + length (_components self)
           * (length (_architectures self) * (contents + 10) + 1))%nat
    | Src => (3 + 4 * length (_components self))%nat
    end.
Proof.
  unfold GetIndexes. intros H.
  destruct (index_walk zero SanitiseUri st self) as [w|] eqn:Hw; simpl in H; [|done].
  destruct (DetermineCurrentTimestamps SanitiseUri st fs w.2); simpl in H; [|done].
  injection H as <- _. unfold index_walk in Hw.
  destruct (release_indexes zero SanitiseUri self) as [w0|] eqn:Hr; simpl in Hw; [|done].
  destruct (release_indexes_Ok _ _ Hr) as [Hne ->].
  destruct (_sourceType self).
  - injection Hw as <-. unfold binary_indexes. cbn [fst snd].
    destruct (_components self) as [|c0 components] eqn:Hc; [done|].
    cbn [nonempty_list]. rewrite <- Hc.
    rewrite (foldl_length_fst _
               (length (_architectures self) * ((if Contents st then 3 else 0) + 10) + 1)).
    + cbn [fst]. destruct (Contents st); [|simpl; lia].
      rewrite length_app, contents_length. simpl. lia.
    + intros v component. unfold component_body. cbn [fst]. rewrite length_app.
      rewrite (foldl_length_fst _ ((if Contents st then 3 else 0) + 10)).
      * simpl. lia.
      * intros u architecture. apply architecture_body_length.
  - unfold source_indexes in Hw.
    destruct (_components self) as [|c0 components] eqn:Hc; [done|].
    cbn [nonempty_list] in Hw. rewrite <- Hc in *.
    etrans; [eapply (foldlM_length_fst _ 4); [|exact Hw]|simpl; lia].
    intros v component v' Hbody.
    etrans; [eapply (foldlM_length_fst _ 1); [|exact Hbody]
            |cbn [fst]; rewrite length_app; simpl; lia].
    intros u compressionFormat u'. unfold sources_body.
    destruct (item (_architectures self) 0); simpl; [|done].
    intros [= <-]. cbn [fst]. rewrite length_app. simpl. lia.
Qed.

Lemma tracked_start ic : tracked SanitiseUri ic ([], ic).
Proof. intros c a f ts Hl. left. simpl in Hl. by rewrite Hl. Qed.

Lemma tracked_more ic0 w (urls : list string) :
  tracked SanitiseUri ic0 w → (∀ u, u ∈ w.1 → u ∈ urls) →
  tracked SanitiseUri ic0 (urls, w.2).
Proof.
  intros Hw Hsub c a f ts Hl. destruct (Hw c a f ts Hl) as [?|(u & Hu & ->)]; [by left|].
  right. exists u. split; [by apply Hsub|done].
Qed.

Lemma tracked_Add ic0 w (urls : list string) c a url :
  tracked SanitiseUri ic0 w → (∀ u, u ∈ w.1 → u ∈ urls) → url ∈ urls →
  tracked SanitiseUri ic0 (urls, Add zero SanitiseUri w.2 c a url).
Proof.
  intros Hw Hsub Hurl c' a' f ts. cbn [snd fst]. rewrite lookup_file_Add.
  destruct (decide (c = c' ∧ a = a')) as [[<- <-]|].
  - destruct (decide (SanitiseUri url = f)) as [<-|].
    + intros _. right. by exists url.
    + intros Hl. by apply (tracked_more ic0 w urls Hw Hsub c a f ts).
  - intros Hl. by apply (tracked_more ic0 w urls Hw Hsub c' a' f ts).
Qed.

Lemma index_walk_tracked st self w :
  index_walk zero SanitiseUri st self = Ok w →
  tracked SanitiseUri (_indexCollection self) w.
Proof.
  unfold index_walk. intros Hw.
  destruct (release_indexes zero SanitiseUri self) as [w0|] eqn:Hr; simpl in Hw; [|done].
  destruct (release_indexes_Ok _ _ Hr) as [_ ->].
  set (ic0 := _indexCollection self) in *.
  assert (tracked SanitiseUri ic0
            ([dists_url self +:+ "InRelease"; dists_url self +:+ "Release";
              dists_url self +:+ "Release.gpg"], ic0)) as Hstart.
  { apply (tracked_more ic0 ([], ic0)); [apply tracked_start|]. intros u Hu. by inv Hu. }
  destruct (_sourceType self).
  - injection Hw as <-. unfold binary_indexes. cbn [fst snd].
    destruct (nonempty_list (_components self)); [|done].
    apply (foldl_invariant (tracked SanitiseUri ic0)).
    { apply (tracked_more ic0 _ _ Hstart). intros u Hu.
      destruct (Contents st); [|done]. apply elem_of_app. by left. }
    intros v component Hv _. unfold component_body.
    apply (tracked_more ic0
             (foldl (architecture_body zero SanitiseUri st (dists_url self) component) v
                    (_architectures self))).
    2: { intros u Hu. apply elem_of_app. by left. }
    apply (foldl_invariant (tracked SanitiseUri ic0)); [done|].
    intros u architecture Hu _. unfold architecture_body.
    apply (foldl_invariant (tracked SanitiseUri ic0)).
    { apply (tracked_more ic0 _ _ Hu). intros x Hx. apply elem_of_app. left.
      destruct (Contents st); [|done]. apply elem_of_app. by left. }
    intros t compressionFormat Ht _. unfold packages_body.
    apply (tracked_Add ic0 t); [done| |].
    + intros x Hx. apply elem_of_app. by left.
    + apply elem_of_app. right. by left.
  - unfold source_indexes in Hw.
    destruct (nonempty_list (_components self)); [|by injection Hw as <-].
    refine (foldlM_preserves (tracked SanitiseUri ic0) _ _ _ _ _ Hstart Hw).
    intros v component v' Hv Hbody.
    refine (foldlM_preserves (tracked SanitiseUri ic0) _ _ _ _ _ _ Hbody).
    + intros u compressionFormat u' Hu Hs. unfold sources_body in Hs.
      destruct (item (_architectures self) 0); simpl in Hs; [|done].
      injection Hs as <-. apply (tracked_Add ic0 u); [done| |].
      * intros x Hx. apply elem_of_app. by left.
      * apply elem_of_app. right. by left.
    + apply (tracked_more ic0 v); [done|]. intros x Hx. apply elem_of_app. by left.
Qed.

(** X17: every file that the collection holds after [GetIndexes] was in
    the collection before the call or is the sanitised form of a URL that
    the call returns: nothing is registered that is not downloaded. *)
Theorem GetIndexes_registers_returned_urls st fs self urls self' c a f ts :
  GetIndexes zero SanitiseUri st fs self = Ok (urls, self') →
  lookup_file (_indexCollection self') c a f = Some ts →
  is_Some (lookup_file (_indexCollection self) c a f)
  ∨ ∃ url, url ∈ urls ∧ f = SanitiseUri url.
Proof.
  unfold GetIndexes. intros H Hl.
  destruct (index_walk zero SanitiseUri st self) as [w|] eqn:Hw; simpl in H; [|done].
  destruct (DetermineCurrentTimestamps SanitiseUri st fs w.2) as [ic1|] eqn:Hic1;
    simpl in H; [|done].
  injection H as <- <-. simpl in Hl.
  pose proof (DetermineCurrentTimestamps_lookup _ _ _ _ _ c a f Hic1) as Hbefore.
  destruct (lookup_file w.2 c a f) as [ts0|] eqn:Hl0; [|congruence].
  by apply (index_walk_tracked st self w Hw c a f ts0).
Qed.

End walks.

(** ** The scanner of checksum blocks and its callers *)

Section scanner.

Context {Time : Type} `{!EqDecision Time}.
Variable SanitiseUri : string → string.
Variable re_match : string → string → bool.

Implicit Types fs : @FileSystem Time.
Implicit Types st : Settings.
Implicit Types self : @Source Time.

Lemma prefix_append s t : String.prefix s (s +:+ t) = true.
Proof.
  induction s as [|c s IH]; [by destruct t|].
  change (String c s +:+ t) with (String c (s +:+ t)).
  change (String.prefix (String c s) (String c (s +:+ t)))
    with (if ascii_dec c c then String.prefix s (s +:+ t) else false).
  by destruct (ascii_dec c c).
Qed.


(** X19: for a binary mirror with a component, [GetDep11Files] raises
    [FileNotFoundError] when the [Release] file is not on disk, and so
    does [GetTranslationIndexes] when the [Index] file of the first
    component is not there either. *)
Theorem discovery_without_release st fs self component components :
  _sourceType self = Bin →
  _components self = component :: components →
  fs (SkelPath st +:+ "/" +:+ SanitiseUri (dists_url self +:+ "Release")) = None →
  GetDep11Files SanitiseUri re_match st fs self = Raise "FileNotFoundError"
  ∧ (isfile fs (SkelPath st +:+ "/"
                +:+ SanitiseUri ((dists_url self +:+ component +:+ "/i18n/") +:+ "Index"))
     = false →
     GetTranslationIndexes SanitiseUri re_match st fs self = Raise "FileNotFoundError").
Proof.
  intros Hbin Hc Hmissing. split.
  - unfold GetDep11Files. rewrite Hbin, Hc. simpl.
    unfold ProcessLine, open_lines. by rewrite Hmissing.
  - intros Hindex. unfold GetTranslationIndexes. rewrite Hbin, Hc. simpl.
    unfold ProcessTranslationIndex. rewrite Hindex. simpl.
    unfold ProcessLine, open_lines. by rewrite Hmissing.
Qed.

(** X20: a file in which no line names a checksum yields no URL. *)
Theorem ProcessLine_without_label st fs self file indexType indexUri baseUri component lines :
  open_lines fs file = Ok lines →
  (∀ line, line ∈ lines → has_label line = false) →
  ProcessLine re_match st fs self file indexType indexUri baseUri component = Ok [].
Proof.
  intros Hopen Hlines. unfold ProcessLine. rewrite Hopen. simpl.
  assert (scan re_match st self indexType indexUri baseUri component scan_start lines
          = Ok scan_start) as ->; [|done].
  clear Hopen. unfold scan. induction lines as [|line lines IH]; [done|]. cbn [foldlM].
  rewrite (ProcessLine_step_outside re_match st self indexType indexUri baseUri component
             scan_start line eq_refl); [|apply Hlines; by left].
  simpl. apply IH. intros l Hl. apply Hlines. by right.
Qed.

Lemma ProcessLine_step_prefixed st self indexType indexUri baseUri component s line s' :
  let base := match indexType with Index => baseUri | _ => indexUri end in
  (∀ url, url ∈ indexes s → String.prefix base url = true) →
  ProcessLine_step re_match st self indexType indexUri baseUri component s line = Ok s' →
  ∀ url, url ∈ indexes s' → String.prefix base url = true.
Proof.
  intros base Hs. unfold ProcessLine_step.
  destruct (checksums s); [|by intros [= <-]].
  destruct (record_pattern line); [|by intros [= <-]].
  destruct (fields " " line) as [|part0 [|part1 [|part2 [|]]]]; try by intros [= <-].
  destruct indexType.
  - intros [= <-] url [Hin|Hin%list_elem_of_singleton]%elem_of_app; [by apply Hs|].
    subst url. apply prefix_append.
  - destruct (re_match _ _); [|by intros [= <-]].
    destruct (ByHash st).
    + destruct (label_after (checksumType s) line); simpl; [|done].
      intros [= <-] url. cbn [indexes]. rewrite !elem_of_app, !list_elem_of_singleton.
      intros [[Hin| ->]| ->]; [by apply Hs|apply prefix_append..].
    + intros [= <-] url [Hin|Hin%list_elem_of_singleton]%elem_of_app; [by apply Hs|].
      subst url. apply prefix_append.
  - assert (∀ url,
              url ∈ foldl (λ found arch,
                             if re_match (dep11_pattern component arch) (rstrip part2)
                             then found ++ [indexUri +:+ rstrip part2] else found)
                          (indexes s) (_architectures self) →
              String.prefix indexUri url = true) as Hfound.
    { apply (foldl_invariant
               (λ found : list string, ∀ url, url ∈ found → String.prefix indexUri url = true));
        [done|].
      intros found arch Hfound _. destruct (re_match _ _); [|done].
      intros url [Hin|Hin%list_elem_of_singleton]%elem_of_app; [by apply Hfound|].
      subst url. apply prefix_append. }
    destruct (ByHash st).
    + destruct (label_after (checksumType s) line); simpl; [|done].
      intros [= <-] url. cbn [indexes]. rewrite elem_of_app, list_elem_of_singleton.
      intros [Hin| ->]; [by apply Hfound|apply prefix_append].
    + by intros [= <-].
Qed.

(** X21: every URL that [__ProcessLine] returns begins with the URL that
    the caller gave it: [baseUri] for an [Index] file, [indexUri] for a
    [Release] file. *)
Theorem ProcessLine_urls_below_base st fs self file indexType indexUri baseUri component
    urls url :
  ProcessLine re_match st fs self file indexType indexUri baseUri component = Ok urls →
  url ∈ urls →
  String.prefix (match indexType with Index => baseUri | _ => indexUri end) url = true.
Proof.
  unfold ProcessLine. intros H.
  destruct (open_lines fs file) as [lines|]; simpl in H; [|done].
  destruct (scan re_match st self indexType indexUri baseUri component scan_start lines)
    as [s|] eqn:Hscan; simpl in H; [|done].
  injection H as <-. revert url.
  refine (foldlM_preserves
            (λ s, ∀ url, url ∈ indexes s →
                         String.prefix (match indexType with Index => baseUri | _ => indexUri end)
                                       url = true)
            _ _ _ _ _ _ Hscan).
  - intros s0 line s1 Hs0 Hstep.
    by apply (ProcessLine_step_prefixed st self indexType indexUri baseUri component
                s0 line s1).
  - intros url Hin. by inv Hin.
Qed.

(** X22: in a block, a line of the form of a record that does not have
    three parts is passed over: the scan of the file gives what the scan
    of the file without that line gives. *)
Theorem scan_skips_malformed_record st self indexType indexUri baseUri component
    pre bad post label found :
  scan re_match st self indexType indexUri baseUri component scan_start pre
  = Ok (ScanState true (Some label) found) →
  record_pattern bad = true →
  length (fields " " bad) ≠ 3%nat →
  has_label bad = false →
  scan re_match st self indexType indexUri baseUri component scan_start (pre ++ bad :: post)
  = scan re_match st self indexType indexUri baseUri component scan_start (pre ++ post).
Proof.
  intros Hpre Hrec Hparts Hlabel. unfold scan in *.
  rewrite !foldlM_app, Hpre. simpl.
  assert (ProcessLine_step re_match st self indexType indexUri baseUri component
            (ScanState true (Some label) found) bad
          = Ok (ScanState true (Some label) found)) as ->; [|done].
  unfold ProcessLine_step, label_after. simpl. rewrite Hrec, Hlabel.
  by destruct (fields " " bad) as [|part0 [|part1 [|part2 [|]]]].
Qed.

End scanner.

(** ** [Index.Read] *)

Lemma rstrip_points_cons n s :
  rstrip_points (n :: s)
  = match rstrip_points s with
    | [] => if isspace_point n then [] else [n]
    | r => n :: r
    end.
Proof. reflexivity. Qed.

Lemma rstrip_points_rstrip_points s : rstrip_points (rstrip_points s) = rstrip_points s.
Proof.
  induction s as [|n s IH]; [done|]. rewrite rstrip_points_cons.
  destruct (rstrip_points s) as [|r rs] eqn:Hr.
  - destruct (isspace_point n) eqn:Hn; [done|]. rewrite rstrip_points_cons. simpl.
    by rewrite Hn.
  - rewrite rstrip_points_cons, IH. done.
Qed.

Lemma rstrip_points_last s n :
  last (rstrip_points s) = Some n → isspace_point n = false.
Proof.
  induction s as [|m s IH]; [done|]. simpl.
  destruct (rstrip_points s) as [|r rs] eqn:Hr.
  - destruct (isspace_point m) eqn:Hm; [done|]. simpl. by intros [= <-].
  - intros H. apply IH. by rewrite <- H.
Qed.

Lemma mapM_Ok {A B} (f : A → result B) (l : list A) (k : list B) :
  mapM f l = Ok k → Forall2 (λ x y, f x = Ok y) l k.
Proof.
  revert k. induction l as [|x l IH]; intros k; simpl.
  - intros [= <-]. constructor.
  - destruct (f x) as [y|] eqn:Hy; simpl; [|done].
    destruct (mapM f l) as [k'|]; simpl; [|done].
    intros [= <-]. constructor; [done|]. by apply IH.
Qed.

(** X23: [Read] yields one line for each line of the file, and none of
    them ends in white space: a line of white space alone is read as
    the empty line. *)
Theorem Read_lines_trimmed contents lines :
  Read contents = Ok lines →
  length lines = length (readlines contents)
  ∧ ∀ line, line ∈ lines →
      rstrip_points line = line
      ∧ ∀ n, last line = Some n → isspace_point n = false.
Proof.
  unfold Read. intros H. apply mapM_Ok in H. split.
  - symmetry. by eapply Forall2_length.
  - intros line Hin. apply list_elem_of_lookup in Hin as [i Hi].
    destruct (Forall2_lookup_r _ _ _ _ _ H Hi) as (raw & _ & Hraw).
    destruct (decode raw) as [text|]; simpl in Hraw; [|done].
    injection Hraw as <-. split; [apply rstrip_points_rstrip_points|].
    apply rstrip_points_last.
Qed.

(** ** [Downloader.CustomArguments] *)

Lemma elem_of_append_if test argument (arguments : list string) x :
  x ∈ append_if test argument arguments ↔ x ∈ arguments ∨ (test = true ∧ x = argument).
Proof.
  unfold append_if. destruct test.
  - rewrite elem_of_app, list_elem_of_singleton. split.
    + intros [H|H]; [by left|by right].
    + intros [H|[_ H]]; [by left|by right].
  - split; [by left|]. by intros [H|[H _]].
Qed.

(** X24: the arguments for the proxy are given to wget only when the
    proxy is in use, and then the switch [-e use_proxy=yes] is among
    them; a setting that is not set adds no argument. *)
Theorem CustomArguments_proxy w :
  (∀ argument, argument ∈ CustomArguments w →
     String.prefix "-e " argument = true → UseProxy w = true)
  ∧ ("-e use_proxy=yes" ∈ CustomArguments w ↔ UseProxy w = true)
  ∧ (AuthNoChallege w = false → NoCheckCertificate w = false → Unlink w = false →
     Certificate w = "" → CaCertificate w = "" → PrivateKey w = "" →
     UseProxy w = false → CustomArguments w = []).
Proof.
  split; [|split].
  - intros argument. unfold CustomArguments.
    destruct (UseProxy w); [done|].
    rewrite !elem_of_append_if. intros H Hprefix.
    repeat (destruct H as [H|[_ ->]]; [|by vm_compute in Hprefix]). by inv H.
  - unfold CustomArguments. destruct (UseProxy w).
    + split; [done|]. intros _. rewrite !elem_of_append_if.
      do 4 left. apply elem_of_app. right. by left.
    + split; [|done]. rewrite !elem_of_append_if. intros H.
      repeat (destruct H as [H|[_ H]]; [|simpl in H; discriminate]). by inv H.
  - intros H1 H2 H3 H4 H5 H6 H7. unfold CustomArguments.
    by rewrite H1, H2, H3, H4, H5, H6, H7.
Qed.
(** * The further properties on the sample data *)

Lemma GetPackages_one_record_per_blank_line_witness :
  GetPackages index_lines = Ok [index_record]
  ∧ length [index_record]
    = length (List.filter (λ line, negb (nonempty line)) index_lines).
Proof.
  assert (GetPackages index_lines = Ok [index_record]) as H by (vm_compute; reflexivity).
  split; [exact H|].
  exact (GetPackages_one_record_per_blank_line index_lines [index_record] H).
Defined.

Lemma GetPackages_fields_whitelisted_witness :
  GetPackages index_lines = Ok [index_record]
  ∧ index_record ∈ [index_record]
  ∧ is_Some (index_record !! "Size")
  ∧ "Size" ∈ keywords.
Proof.
  assert (GetPackages index_lines = Ok [index_record]) as H by (vm_compute; reflexivity).
  assert (is_Some (index_record !! "Size")) as Hsize
    by (vm_compute; eexists; reflexivity).
  split; [exact H|]. split; [apply list_elem_of_here|]. split; [exact Hsize|].
  exact (GetPackages_fields_whitelisted index_lines [index_record] index_record "Size"
           H (list_elem_of_here _ _) Hsize).
Defined.

Lemma GetPackages_continuation_after_blank_witness :
  GetPackages [] = Ok []
  ∧ nonempty "Filename: a/b.deb" = true
  ∧ field_match "Filename: a/b.deb" = true
  ∧ default "" (head (split ":" "Filename: a/b.deb")) ∈ keywords
  ∧ nonempty " and more" = true
  ∧ field_match " and more" = false
  ∧ GetPackages ([] ++ ["Filename: a/b.deb"; ""; " and more"] ++ []) = Raise "KeyError".
Proof.
  assert (default "" (head (split ":" "Filename: a/b.deb")) ∈ keywords) as Hkey
    by (vm_compute; apply list_elem_of_here).
  split; [reflexivity|]. split; [reflexivity|]. split; [vm_compute; reflexivity|].
  split; [exact Hkey|]. split; [reflexivity|]. split; [vm_compute; reflexivity|].
  apply (GetPackages_continuation_after_blank [] [] "Filename: a/b.deb" " and more" []);
    [reflexivity|reflexivity|vm_compute; reflexivity|exact Hkey|reflexivity
    |vm_compute; reflexivity].
Defined.

Lemma GetPackages_bare_keyword_witness :
  "Filename" ∈ keywords ∧ GetPackages ["Filename"; "Size: 100"; ""] = Raise "IndexError".
Proof.
  split; [apply list_elem_of_here|].
  apply GetPackages_bare_keyword. apply list_elem_of_here.
Defined.

Lemma GetPackages_returns_witness :
  (∀ line, line ∈ index_lines → nonempty line = false ∨ field_match line = true)
  ∧ ∃ records, GetPackages index_lines = Ok records.
Proof.
  assert (∀ line, line ∈ index_lines → nonempty line = false ∨ field_match line = true)
    as Hlines.
  { apply Forall_forall. unfold index_lines.
    apply Forall_cons. split; [right; vm_compute; reflexivity|].
    apply Forall_cons. split; [right; vm_compute; reflexivity|].
    apply Forall_cons. split; [left; reflexivity|]. apply Forall_nil_2. }
  split; [exact Hlines|]. exact (GetPackages_returns index_lines Hlines).
Defined.

Lemma Source_init_returns_witness :
  elements_of debian_line !! elementIndex_of debian_line = Some "http://example.com/debian"
  ∧ ∃ self : @Source Z,
      Source_init debian_line "amd64" = Ok self
      ∧ _uri self = "http://example.com/debian" ∧ _clean self = true.
Proof.
  assert (elements_of debian_line !! elementIndex_of debian_line
          = Some "http://example.com/debian") as H by (vm_compute; reflexivity).
  split; [exact H|].
  exact (Source_init_returns debian_line "amd64" "http://example.com/debian" H).
Defined.

Lemma Source_init_ignores_comment_witness :
  contains "#" debian_line = false
  ∧ Source_init (Time := Z) (debian_line +:+ "#" +:+ " the mirror") "amd64"
    = Source_init debian_line "amd64".
Proof.
  assert (contains "#" debian_line = false) as H by (vm_compute; reflexivity).
  split; [exact H|].
  exact (Source_init_ignores_comment debian_line " the mirror" "amd64" H).
Defined.

Lemma Source_init_default_architecture_witness :
  Source_init debian_line "amd64" = Ok debian_source
  ∧ contains "[" (strip_comment debian_line) && contains "]" (strip_comment debian_line)
    = false
  ∧ _architectures debian_source = ["amd64"].
Proof.
  assert (Source_init debian_line "amd64" = Ok debian_source) as H
    by (vm_compute; reflexivity).
  assert (contains "[" (strip_comment debian_line)
          && contains "]" (strip_comment debian_line) = false) as Hplain
    by (vm_compute; reflexivity).
  split; [exact H|]. split; [exact Hplain|].
  exact (Source_init_default_architecture debian_line "amd64" debian_source H Hplain).
Defined.

Lemma Source_init_flat_or_nested_witness :
  Source_init flat_line "amd64" = Ok flat_source
  ∧ _flatRepository flat_source = true
  ∧ _distribution flat_source = ""
  ∧ _components flat_source = ["Flat"]
  ∧ _uri flat_source ≠ "".
Proof.
  assert (Source_init flat_line "amd64" = Ok flat_source) as H
    by (vm_compute; reflexivity).
  assert (_flatRepository flat_source = true) as Hflat by (vm_compute; reflexivity).
  destruct (Source_init_flat_or_nested flat_line "amd64" flat_source H)
    as (Hdist & Hcomponents & Huri & _).
  split; [exact H|]. split; [exact Hflat|]. split; [exact (proj1 Hdist Hflat)|].
  split; [exact (Hcomponents Hflat)|exact Huri].
Defined.

Lemma Add_then_lookup_witness :
  lookup_file lonely_registered "main" "amd64" packages_xz = Some (Timestamp_init 0)
  ∧ declared lonely_registered "main" "amd64"
  ∧ lookup_file lonely_registered "main" "amd64" packages_gz
    = lookup_file (IndexCollection_init ["main"] ["amd64"]) "main" "amd64" packages_gz.
Proof.
  destruct (Add_then_lookup 0 keep_uri (IndexCollection_init ["main"] ["amd64"])
              "main" "amd64" packages_xz) as (Hfile & Hpair & Hothers & _).
  split; [exact Hfile|]. split; [exact Hpair|].
  apply Hothers. vm_compute. discriminate.
Defined.



Lemma DetermineDownloadTimestamps_twice_witness :
  DetermineDownloadTimestamps keep_uri settings_plain debian_disk debian_before
  = Ok debian_after
  ∧ DetermineDownloadTimestamps keep_uri settings_plain debian_disk debian_after
    = Ok debian_after.
Proof.
  assert (DetermineDownloadTimestamps keep_uri settings_plain debian_disk debian_before
          = Ok debian_after) as Hafter by (vm_compute; reflexivity).
  split; [exact Hafter|].
  exact (DetermineDownloadTimestamps_twice keep_uri settings_plain debian_disk
           debian_before debian_after Hafter).
Defined.

Lemma views_cover_the_collection_witness :
  lookup_file debian_after "main" "amd64" packages_gz = Some (MkTimestamp 5 5)
  ∧ ((splitext packages_gz).1 ∈ Files settings_plain debian_after
     ∨ (splitext packages_gz).1 ∈ UnmodifiedFiles debian_after)
  ∧ NoDup (Files settings_plain debian_after)
  ∧ NoDup (UnmodifiedFiles debian_after).
Proof.
  assert (lookup_file debian_after "main" "amd64" packages_gz = Some (MkTimestamp 5 5))
    as Hl by (vm_compute; reflexivity).
  destruct (views_cover_the_collection settings_plain debian_after)
    as (Hcover & _ & Hfiles & Hunmodified).
  split; [exact Hl|]. split; [exact (Hcover _ _ _ _ Hl)|].
  split; [exact Hfiles|exact Hunmodified].
Defined.

Lemma Source_Modified_iff_witness :
  Source_init debian_line "amd64" = Ok debian_source
  ∧ Source_Modified settings_force debian_source = false.
Proof.
  assert (Source_init debian_line "amd64" = Ok debian_source) as H
    by (vm_compute; reflexivity).
  split; [exact H|].
  exact (proj2 (Source_Modified_iff settings_force debian_source) debian_line "amd64" H).
Defined.

Lemma GetIndexes_length_witness :
  GetIndexes 0 keep_uri settings_plain empty_disk debian_source
  = Ok (debian_indexes.1, debian_indexes.2)
  ∧ _sourceType debian_source = Bin
  ∧ length (_components debian_source) = 1%nat
  ∧ length (_architectures debian_source) = 1%nat
  ∧ length debian_indexes.1 = 14%nat.
Proof.
  assert (GetIndexes 0 keep_uri settings_plain empty_disk debian_source
          = Ok (debian_indexes.1, debian_indexes.2)) as H by (vm_compute; reflexivity).
  split; [exact H|]. split; [vm_compute; reflexivity|].
  split; [vm_compute; reflexivity|]. split; [vm_compute; reflexivity|].
  etrans; [exact (GetIndexes_length 0 keep_uri settings_plain empty_disk debian_source
                    debian_indexes.1 debian_indexes.2 H)|].
  vm_compute. reflexivity.
Defined.

Lemma GetIndexes_registers_returned_urls_witness :
  GetIndexes 0 keep_uri settings_plain empty_disk debian_source
  = Ok (debian_indexes.1, debian_indexes.2)
  ∧ lookup_file (_indexCollection debian_indexes.2) "main" "amd64" packages_gz
    = Some (Timestamp_init 0)
  ∧ (is_Some (lookup_file (_indexCollection debian_source) "main" "amd64" packages_gz)
     ∨ ∃ url, url ∈ debian_indexes.1 ∧ packages_gz = keep_uri url).
Proof.
  assert (GetIndexes 0 keep_uri settings_plain empty_disk debian_source
          = Ok (debian_indexes.1, debian_indexes.2)) as H by (vm_compute; reflexivity).
  assert (lookup_file (_indexCollection debian_indexes.2) "main" "amd64" packages_gz
          = Some (Timestamp_init 0)) as Hl by (vm_compute; reflexivity).
  split; [exact H|]. split; [exact Hl|].
  exact (GetIndexes_registers_returned_urls 0 keep_uri settings_plain empty_disk
           debian_source debian_indexes.1 debian_indexes.2 "main" "amd64" packages_gz
           (Timestamp_init 0) H Hl).
Defined.


Lemma discovery_without_release_witness :
  _sourceType debian_source = Bin
  ∧ _components debian_source = ["main"]
  ∧ empty_disk (SkelPath settings_plain +:+ "/"
                +:+ keep_uri (dists_url debian_source +:+ "Release")) = None
  ∧ GetDep11Files keep_uri no_match settings_plain empty_disk debian_source
    = Raise "FileNotFoundError"
  ∧ GetTranslationIndexes keep_uri no_match settings_plain empty_disk debian_source
    = Raise "FileNotFoundError".
Proof.
  assert (_sourceType debian_source = Bin) as Htype by (vm_compute; reflexivity).
  assert (_components debian_source = ["main"]) as Hcomponents
    by (vm_compute; reflexivity).
  destruct (discovery_without_release keep_uri no_match settings_plain empty_disk
              debian_source "main" [] Htype Hcomponents eq_refl) as [Hdep11 Htranslation].
  split; [exact Htype|]. split; [exact Hcomponents|]. split; [reflexivity|].
  split; [exact Hdep11|]. apply Htranslation. reflexivity.
Defined.

Lemma ProcessLine_without_label_witness :
  open_lines origin_disk "/skel/http://example.com/debian/dists/stable/Release"
  = Ok origin_lines
  ∧ (∀ line, line ∈ origin_lines → has_label line = false)
  ∧ record_pattern (" 0a1b2c 1024 main/binary-amd64/Packages.gz" +:+ nl) = true
  ∧ ProcessLine no_match settings_by_hash origin_disk debian_source
      "/skel/http://example.com/debian/dists/stable/Release" Release
      (dists_url debian_source) "" "main"
    = Ok [].
Proof.
  assert (open_lines origin_disk "/skel/http://example.com/debian/dists/stable/Release"
          = Ok origin_lines) as H by (vm_compute; reflexivity).
  assert (∀ line, line ∈ origin_lines → has_label line = false) as Hlines.
  { apply Forall_forall. unfold origin_lines.
    apply Forall_cons. split; [vm_compute; reflexivity|].
    apply Forall_cons. split; [vm_compute; reflexivity|]. apply Forall_nil_2. }
  split; [exact H|]. split; [exact Hlines|]. split; [vm_compute; reflexivity|].
  exact (ProcessLine_without_label no_match settings_by_hash origin_disk debian_source
           "/skel/http://example.com/debian/dists/stable/Release" Release
           (dists_url debian_source) "" "main" origin_lines H Hlines).
Defined.

Lemma ProcessLine_urls_below_base_witness :
  ProcessLine no_match settings_by_hash release_disk debian_source
    "/skel/http://example.com/debian/dists/stable/Release" Dep11
    (dists_url debian_source) "" "main"
  = Ok ["http://example.com/debian/dists/stable/main/dep11/by-hash/SHA256/0a1b2c"]
  ∧ String.prefix (dists_url debian_source)
      "http://example.com/debian/dists/stable/main/dep11/by-hash/SHA256/0a1b2c"
    = true.
Proof.
  assert (ProcessLine no_match settings_by_hash release_disk debian_source
            "/skel/http://example.com/debian/dists/stable/Release" Dep11
            (dists_url debian_source) "" "main"
          = Ok ["http://example.com/debian/dists/stable/main/dep11/by-hash/SHA256/0a1b2c"])
    as H by (vm_compute; reflexivity).
  split; [exact H|].
  exact (ProcessLine_urls_below_base no_match settings_by_hash release_disk debian_source
           "/skel/http://example.com/debian/dists/stable/Release" Dep11
           (dists_url debian_source) "" "main" _ _ H (list_elem_of_here _ _)).
Defined.

Lemma scan_skips_malformed_record_witness :
  scan no_match settings_by_hash debian_source Dep11 (dists_url debian_source) "" "main"
    scan_start ["SHA256:" +:+ nl]
  = Ok (ScanState true (Some "SHA256") [])
  ∧ record_pattern (" 0a1b2c 1024" +:+ nl) = true
  ∧ length (fields " " (" 0a1b2c 1024" +:+ nl)) ≠ 3%nat
  ∧ has_label (" 0a1b2c 1024" +:+ nl) = false
  ∧ scan no_match settings_by_hash debian_source Dep11 (dists_url debian_source) "" "main"
      scan_start (["SHA256:" +:+ nl] ++ (" 0a1b2c 1024" +:+ nl)
                    :: [" 0a1b2c 1024 main/binary-amd64/Packages.gz" +:+ nl])
    = scan no_match settings_by_hash debian_source Dep11 (dists_url debian_source) ""
        "main" scan_start (["SHA256:" +:+ nl]
                             ++ [" 0a1b2c 1024 main/binary-amd64/Packages.gz" +:+ nl]).
Proof.
  assert (length (fields " " (" 0a1b2c 1024" +:+ nl)) ≠ 3%nat) as Hparts
    by (vm_compute; discriminate).
  split; [vm_compute; reflexivity|]. split; [vm_compute; reflexivity|].
  split; [exact Hparts|]. split; [vm_compute; reflexivity|].
  apply (scan_skips_malformed_record no_match settings_by_hash debian_source Dep11
           (dists_url debian_source) "" "main" ["SHA256:" +:+ nl] (" 0a1b2c 1024" +:+ nl)
           [" 0a1b2c 1024 main/binary-amd64/Packages.gz" +:+ nl] "SHA256" []);
    [vm_compute; reflexivity|vm_compute; reflexivity|exact Hparts|vm_compute; reflexivity].
Defined.

Lemma Read_lines_trimmed_witness :
  Read wide_contents = Ok [points "Size: 100"; []]
  ∧ length [points "Size: 100"; []] = length (readlines wide_contents)
  ∧ rstrip_points (points "Size: 100") = points "Size: 100".
Proof.
  assert (Read wide_contents = Ok [points "Size: 100"; []]) as H
    by (vm_compute; reflexivity).
  destruct (Read_lines_trimmed wide_contents [points "Size: 100"; []] H) as [Hlength Hlines].
  split; [exact H|]. split; [exact Hlength|].
  exact (proj1 (Hlines (points "Size: 100") (list_elem_of_here _ _))).
Defined.

Lemma CustomArguments_proxy_witness :
  "-e http_proxy=proxy.example.com" ∈ CustomArguments wget_proxy
  ∧ String.prefix "-e " "-e http_proxy=proxy.example.com" = true
  ∧ UseProxy wget_proxy = true
  ∧ "-e use_proxy=yes" ∈ CustomArguments wget_proxy.
Proof.
  assert ("-e http_proxy=proxy.example.com" ∈ CustomArguments wget_proxy) as Hin
    by (vm_compute; do 2 apply list_elem_of_further; apply list_elem_of_here).
  destruct (CustomArguments_proxy wget_proxy) as (Honly & Hswitch & _).
  split; [exact Hin|]. split; [reflexivity|].
  split; [exact (Honly _ Hin eq_refl)|].
  apply Hswitch. exact (Honly _ Hin eq_refl).
Defined.
